(** * A shallow embedding of the SDL calculator

    The program keeps its calculator in four globals ([input_str],
    [storedValue], [currentOp], [resetInput]) that [handle_button_press] and
    [calculate_result] mutate; [enhancer.h] adds stand-alone helpers
    (history, backspace, [safeCalculate]).  Here the globals become a record
    that every operation takes and returns, C++ [double] is IEEE-754 binary64
    as specified by [SpecFloat], and the pieces of the C++ standard library
    that the source calls ([std::stod], stream insertion of a [double],
    [std::to_string], [std::round]) are given executable models. *)

From Stdlib Require Import ZArith List String Ascii Bool Lia.
From Stdlib Require Import Floats.SpecFloat.
From Stdlib Require Import Numbers.DecimalString Numbers.DecimalPos.
From Stdlib Require Import Numbers.DecimalN.
Import ListNotations.

Local Open Scope string_scope.
Local Open Scope Z_scope.

(** ** binary64 *)

Module Double.

Definition double := spec_float.

Definition prec : Z := 53.
Definition emax : Z := 1024.

Definition add : double -> double -> double := SFadd prec emax.
Definition sub : double -> double -> double := SFsub prec emax.
Definition mul : double -> double -> double := SFmul prec emax.
Definition div : double -> double -> double := SFdiv prec emax.
Definition abs : double -> double := SFabs.
Definition eqb : double -> double -> bool := SFeqb.
Definition ltb : double -> double -> bool := SFltb.

Definition zero : double := S754_zero false.

(** The integer [n] as a double (exact for [|n| < 2^53]). *)
Definition of_Z (n : Z) : double := binary_normalize prec emax n 0 false.

(** The double nearest to [num / den], ties to even, for [num, den > 0];
    this is the rounding step of [SFdiv] on an exact quotient. *)
Definition of_ratio (s : bool) (num den : positive) : double :=
  let '(q, e, l) := SFdiv_core_binary prec emax (Zpos num) 0 (Zpos den) 0 in
  binary_round_aux prec emax s q e l.

Definition isnan (x : double) : bool :=
  match x with S754_nan => true | _ => false end.

Definition isinf (x : double) : bool :=
  match x with S754_infinity _ => true | _ => false end.

Definition is_finite (x : double) : bool :=
  match x with S754_zero _ | S754_finite _ _ _ => true | _ => false end.

(** [std::signbit].  [SpecFloat] has a single NaN: the sign bit of a NaN is
    not represented, and [signbit] is [false] on it, so what is proved of
    the sign of a result is proved for results that are numbers. *)
Definition signbit (x : double) : bool :=
  match x with
  | S754_zero s | S754_infinity s | S754_finite s _ _ => s
  | S754_nan => false
  end.

(** [|x|] as an exact fraction [(num, den)]; [(0, 1)] when [x] is not a
    non-zero finite number. *)
Definition magnitude (x : double) : Z * Z :=
  match x with
  | S754_finite _ m e =>
      if 0 <=? e then (Zpos m * 2 ^ e, 1) else (Zpos m, 2 ^ (- e))
  | _ => (0, 1)
  end.

(** [std::round]: the nearest integer, halfway cases away from zero; the
    sign of the argument is kept, also on a zero result. *)
Definition round (x : double) : double :=
  match x with
  | S754_finite s m e =>
      if 0 <=? e then x
      else
        let q := (Zpos m + 2 ^ (- e - 1)) / 2 ^ (- e) in
        binary_normalize prec emax (if s then - q else q) 0 s
  | _ => x
  end.

End Double.

(** ** The C++ standard library calls of the source

    [std::stod] is [strtod] with [errno] turned into exceptions; inserting a
    [double] into a stream is [printf] with [%.*f] ([std::fixed]) or [%.*g]
    (no float field set); [std::to_string] is [%f].  The models follow the
    C standard's descriptions: conversions round to nearest, ties to even.
    Where the standard leaves a choice (when [strtod] reports underflow) they
    follow glibc on x86-64, which judges tininess after rounding.  (glibc
    2.36 itself loses a bit of some inputs below [2 ^ (-1022)] that are
    exact binary fractions of more than 53 bits: it rounds
    [0x1.00000000000018p-1023] down and accepts [0x1.00000000000008p-1023];
    the model rounds to nearest and reports the underflow.)
    [SpecFloat] has one NaN, so the sign of a NaN is not modelled: the
    program prints a NaN whose sign bit is set as [-nan], the model prints
    every NaN as [nan]. *)

Module Cxx.

Inductive exception := invalid_argument | out_of_range.

Inductive result (A : Type) :=
| Ok (a : A)
| Throw (e : exception).
Arguments Ok {A} a.
Arguments Throw {A} e.

Definition code (c : ascii) : Z := Z.of_N (N_of_ascii c).

Definition isspace (c : ascii) : bool :=
  (code c =? 32) || ((9 <=? code c) && (code c <=? 13)).

Definition tolower (c : ascii) : ascii :=
  if (65 <=? code c) && (code c <=? 90)
  then ascii_of_N (Z.to_N (code c + 32)) else c.

Definition digit_val (c : ascii) : option Z :=
  if (48 <=? code c) && (code c <=? 57) then Some (code c - 48) else None.

Definition xdigit_val (c : ascii) : option Z :=
  match digit_val c with
  | Some d => Some d
  | None =>
      let l := code (tolower c) in
      if (97 <=? l) && (l <=? 102) then Some (l - 87) else None
  end.

Fixpoint skip_space (s : string) : string :=
  match s with
  | String c r => if isspace c then skip_space r else s
  | EmptyString => s
  end.

(** Is [p] (lower case) a prefix of [s], letter case ignored? *)
Fixpoint prefix_ci (p s : string) : bool :=
  match p, s with
  | EmptyString, _ => true
  | String a p', String b s' => Ascii.eqb a (tolower b) && prefix_ci p' s'
  | String _ _, EmptyString => false
  end.

(** Longest run of digits at the head of [s]: the number read (continuing
    [acc]), how many digits it has (continuing [cnt]) and what follows. *)
Fixpoint digits (base : Z) (val : ascii -> option Z) (s : string)
    (acc cnt : Z) : Z * Z * string :=
  match s with
  | String c r =>
      match val c with
      | Some d => digits base val r (acc * base + d) (cnt + 1)
      | None => (acc, cnt, s)
      end
  | EmptyString => (acc, cnt, s)
  end.

(** Digits with at most one radix point among them and at least one digit:
    gives the digits read as one integer, the number of digits after the
    point, and the rest of the input. *)
Definition mantissa (base : Z) (val : ascii -> option Z) (s : string)
    : option (Z * Z * string) :=
  let '(i, n1, r1) := digits base val s 0 0 in
  let '(m, n2, r2) :=
    match r1 with
    | String "." r => digits base val r i 0
    | _ => (i, 0, r1)
    end in
  if n1 + n2 =? 0 then None else Some (m, n2, r2).

(** An exponent part [marker [sign] digits]; 0 when there is none (a marker
    with no digit after it is not part of the number). *)
Definition exponent (marker : ascii) (s : string) : Z :=
  match s with
  | String c r =>
      if Ascii.eqb (tolower c) marker then
        let '(neg, r') :=
          match r with
          | String "-" r' => (true, r')
          | String "+" r' => (false, r')
          | _ => (false, r)
          end in
        let '(e, n, _) := digits 10 digit_val r' 0 0 in
        if n =? 0 then 0 else if neg then - e else e
      else 0
  | EmptyString => 0
  end.

(** A decimal literal as [(m, k)], standing for [m * 10 ^ k]. *)
Definition dec_literal (s : string) : option (Z * Z) :=
  match mantissa 10 digit_val s with
  | Some (m, n, r) => Some (m, exponent "e" r - n)
  | None => None
  end.

(** A hexadecimal literal [0x...] as [(m, k)], standing for [m * 2 ^ k]. *)
Definition hex_literal (s : string) : option (Z * Z) :=
  match s with
  | String "0" (String x r) =>
      if Ascii.eqb (tolower x) "x" then
        match mantissa 16 xdigit_val r with
        | Some (m, n, r') => Some (m, exponent "p" r' - 4 * n)
        | None => None
        end
      else None
  | _ => None
  end.

(** Is [num / den > 0] below the normal range, also once it is rounded to 53
    bits?  That is [num / den < 2 ^ (-1022) * (1 - 2 ^ (-54))]: from there
    on the number rounds to [2 ^ (-1022)], and tininess is judged after
    rounding. *)
Definition is_tiny (num den : Z) : bool :=
  num * 2 ^ 1076 <? (2 ^ 54 - 1) * den.

(** [m * base ^ k] rounded to a double.  [strtod] sets [ERANGE], and
    [std::stod] throws [out_of_range], when the result overflows, or when
    the number read is tiny and the result differs from it (underflow). *)
Definition convert (neg : bool) (m base k : Z) : result Double.double :=
  if m =? 0 then Ok (S754_zero neg)
  else
    let '(num, den) :=
      if 0 <=? k then (m * base ^ k, 1) else (m, base ^ (- k)) in
    let x := Double.of_ratio neg (Z.to_pos num) (Z.to_pos den) in
    let '(xn, xd) := Double.magnitude x in
    if Double.isinf x || (is_tiny num den && negb (xn * den =? num * xd))
    then Throw out_of_range else Ok x.

(** [std::stod(str)]: white space, an optional sign, then [inf], [nan], a
    hexadecimal or a decimal number; what follows the number is ignored. *)
Definition stod (str : string) : result Double.double :=
  let s := skip_space str in
  let '(neg, s) :=
    match s with
    | String "-" r => (true, r)
    | String "+" r => (false, r)
    | _ => (false, s)
    end in
  if prefix_ci "inf" s then Ok (S754_infinity neg)
  else if prefix_ci "nan" s then Ok S754_nan
  else
    match hex_literal s with
    | Some (m, k) => convert neg m 2 k
    | None =>
        match dec_literal s with
        | Some (m, k) => convert neg m 10 k
        | None => Throw invalid_argument
        end
    end.

(** *** Output *)

Definition sign (neg : bool) : string := if neg then "-" else "".

(** The decimal numeral of a natural number. *)
Definition dec (n : Z) : string :=
  NilEmpty.string_of_uint (N.to_uint (Z.to_N n)).

Definition digit_char (d : Z) : ascii := ascii_of_N (Z.to_N (48 + d)).

(** The [w] lowest decimal digits of [n], the highest first. *)
Fixpoint digits_of (w : nat) (n : Z) : list Z :=
  match w with
  | O => []
  | S w' => (digits_of w' (n / 10) ++ [n mod 10])%list
  end.

Definition numeral (ds : list Z) : string :=
  string_of_list_ascii (map digit_char ds).

(** The integer nearest to [n / d], halfway cases to the even one
    ([n >= 0], [d > 0]). *)
Definition round_div (n d : Z) : Z :=
  let q := n / d in
  match 2 * (n mod d) ?= d with
  | Lt => q
  | Eq => if Z.even q then q else q + 1
  | Gt => q + 1
  end.

(** [num / den * 10 ^ k], rounded to an integer. *)
Definition scaled (num den k : Z) : Z :=
  if 0 <=? k then round_div (num * 10 ^ k) den
  else round_div num (den * 10 ^ (- k)).

(** [%.pf]: [p] digits after the point, no point when [p = 0]. *)
Definition fixed (p : nat) (x : Double.double) : string :=
  match x with
  | S754_nan => "nan"
  | S754_infinity s => sign s ++ "inf"
  | _ =>
      let '(num, den) := Double.magnitude x in
      let q := scaled num den (Z.of_nat p) in
      let w := 10 ^ Z.of_nat p in
      sign (Double.signbit x) ++ dec (q / w)
      ++ match p with
         | O => ""
         | _ => "." ++ numeral (digits_of p (q mod w))
         end
  end.

(** The [k >= 0] with [d * 10 ^ k <= n < d * 10 ^ (k + 1)], for
    [0 < d <= n]. *)
Fixpoint exponent_up (fuel : nat) (n d : Z) : Z :=
  match fuel with
  | O => 0
  | S f => if n <? d * 10 then 0 else 1 + exponent_up f n (d * 10)
  end.

(** The [k >= 1] with [n * 10 ^ (k - 1) < d <= n * 10 ^ k], for
    [0 < n < d]. *)
Fixpoint exponent_down (fuel : nat) (n d : Z) : Z :=
  match fuel with
  | O => 1
  | S f => if d <=? n * 10 then 1 else 1 + exponent_down f (n * 10) d
  end.

(** The decimal exponent of [num / den > 0]: the [X] with
    [10 ^ X <= num / den < 10 ^ (X + 1)]. *)
Definition exponent10 (num den : Z) : Z :=
  if den <=? num then exponent_up (S (Z.to_nat (Z.log2 num))) num den
  else - exponent_down (S (Z.to_nat (Z.log2 den))) num den.

(** [num / den > 0] in style [e] with [P] significant digits: the digits
    as one integer and the exponent [X] the conversion shows; rounding
    up to [10 ^ P] moves on to the next exponent. *)
Definition significand (P : nat) (num den : Z) : Z * Z :=
  let X := exponent10 num den in
  let d := scaled num den (Z.of_nat P - 1 - X) in
  if 10 ^ Z.of_nat P <=? d then (10 ^ (Z.of_nat P - 1), X + 1) else (d, X).

(** Trailing zeros removed. *)
Fixpoint trim (ds : list Z) : list Z :=
  match ds with
  | [] => []
  | d :: r =>
      match trim r with
      | [] => if d =? 0 then [] else [d]
      | r' => d :: r'
      end
  end.

(** An optional fractional portion: the point is dropped with it. *)
Definition fraction (ds : list Z) : string :=
  match ds with
  | [] => ""
  | _ => "." ++ numeral ds
  end.

(** Style [f] of [%g]: the significant digits [ds] of a number with
    decimal exponent [X], written out in full. *)
Definition decimal_layout (ds : list Z) (X : Z) : string :=
  if X <? 0 then
    "0" ++ fraction (repeat 0 (Z.to_nat (- X - 1)) ++ ds)%list
  else
    let n := Z.to_nat (X + 1) in
    numeral (firstn n (ds ++ repeat 0 (n - List.length ds)%nat)%list)
    ++ fraction (skipn n ds).

(** Style [e] of [%g]: one digit, the others as fraction, and the exponent
    with its sign and at least two digits. *)
Definition scientific_layout (ds : list Z) (X : Z) : string :=
  numeral (firstn 1 ds) ++ fraction (skipn 1 ds)
  ++ "e" ++ (if X <? 0 then "-" else "+")
  ++ (if Z.abs X <? 10 then "0" else "") ++ dec (Z.abs X).

(** [%.Pg]: style [f] when the exponent [X] of style [e] has
    [-4 <= X < P], style [e] otherwise, trailing zeros of the fraction
    removed. *)
Definition general (P : nat) (x : Double.double) : string :=
  match x with
  | S754_nan => "nan"
  | S754_infinity s => sign s ++ "inf"
  | S754_zero s => sign s ++ "0"
  | S754_finite s _ _ =>
      let '(num, den) := Double.magnitude x in
      let '(d, X) := significand P num den in
      let ds := trim (digits_of P d) in
      sign s ++
      (if (-4 <=? X) && (X <? Z.of_nat P) then decimal_layout ds X
       else scientific_layout ds X)
  end.

(** What [ss << val] writes for the stream's float field and precision
    ([%g] reads a precision of 0 as 1). *)
Inductive floatfield := defaultfloat | fixedfield.

Definition put (ff : floatfield) (precision : nat) (val : Double.double)
    : string :=
  match ff with
  | fixedfield => fixed precision val
  | defaultfloat => general (Nat.max 1 precision) val
  end.

(** [std::to_string(double)] is [%f]. *)
Definition to_string (val : Double.double) : string := fixed 6 val.

End Cxx.

(** ** What the program uses of SDL

    A rectangle, and the tick counter as a 32-bit unsigned number.  The
    C++ [int] coordinates are integers here: every sum the program forms
    from them stays far inside the range of [int]. *)

Module SDL.

Record SDL_Rect := { x : Z; y : Z; w : Z; h : Z }.

(** [Uint32] arithmetic is modulo [2 ^ 32]. *)
Definition Uint32 (n : Z) : Z := n mod 2 ^ 32.

End SDL.

(** ** The calculator (the SDL program: globals, [format_double],
    [calculate_result], [handle_button_press], [layout_buttons]) *)

Module Calculator.

Import Cxx.

(** A button as the logic sees it ([rect] only matters for drawing and
    hit-testing). *)
Record Button := {
  label : string;
  type : string;   (* "number", "operator", "clear", "equals" *)
  value : ascii
}.

(** The globals [input_str], [storedValue], [currentOp], [resetInput]. *)
Record State := {
  input_str : string;
  storedValue : Double.double;
  currentOp : ascii;
  resetInput : bool
}.

(** [char 0]: no operator pending. *)
Definition NUL : ascii := "000"%char.

(** The initializers of the globals. *)
Definition initial : State :=
  {| input_str := "0"; storedValue := Double.zero;
     currentOp := NUL; resetInput := true |}.

(** The literal [1e-9]. *)
Definition tolerance : Double.double := Double.of_ratio false 1 1000000000.

(** [std::abs(val - std::round(val)) < 1e-9] *)
Definition near_integer (val : Double.double) : bool :=
  Double.ltb (Double.abs (Double.sub val (Double.round val))) tolerance.

Definition format_double (val : Double.double) : string :=
  if near_integer val then put fixedfield 0 val
  else put defaultfloat 10 val.

(** [try { b = std::stod(s); } catch (...) { b = 0.0; }] *)
Definition stod_or_zero (s : string) : Double.double :=
  match stod s with
  | Ok d => d
  | Throw _ => Double.zero
  end.

Definition calculate_result (st : State) : State :=
  if Ascii.eqb (currentOp st) NUL then st
  else
    let a := storedValue st in
    let b := stod_or_zero (input_str st) in
    let op := currentOp st in
    (* the switch: the result, and the [error] flag *)
    let '(result, error) :=
      if Ascii.eqb op "+" then (Double.add a b, false)
      else if Ascii.eqb op "-" then (Double.sub a b, false)
      else if Ascii.eqb op "*" then (Double.mul a b, false)
      else if Ascii.eqb op "/" then
        if negb (Double.eqb b Double.zero) then (Double.div a b, false)
        else (Double.zero, true)
      else (Double.zero, false) in
    if negb error then
      {| input_str := format_double result; storedValue := result;
         currentOp := NUL; resetInput := true |}
    else
      {| input_str := "Error"; storedValue := Double.zero;
         currentOp := NUL; resetInput := true |}.

(** [input_str.find('.') != std::string::npos] *)
Fixpoint contains (c : ascii) (s : string) : bool :=
  match s with
  | EmptyString => false
  | String a r => Ascii.eqb a c || contains c r
  end.

(** One press.  An exception that leaves [handle_button_press] is caught
    nowhere in [main]: [Throw] is the end of the process. *)
Definition handle_button_press (btn : Button) (st : State) : result State :=
  if String.eqb (type btn) "number" then
    if resetInput st then
      Ok {| input_str := if Ascii.eqb (value btn) "." then "0." else label btn;
            storedValue := storedValue st; currentOp := currentOp st;
            resetInput := false |}
    else if Ascii.eqb (value btn) "." && contains "." (input_str st) then
      Ok st
    else
      Ok {| input_str :=
              if String.eqb (input_str st) "0"
                 && negb (Ascii.eqb (value btn) ".")
              then label btn
              else input_str st ++ label btn;
            storedValue := storedValue st; currentOp := currentOp st;
            resetInput := resetInput st |}
  else if String.eqb (type btn) "operator" then
    if negb (resetInput st) then
      if negb (Ascii.eqb (currentOp st) NUL) then
        let st' := calculate_result st in
        match stod (input_str st') with
        | Ok v =>
            Ok {| input_str := input_str st'; storedValue := v;
                  currentOp := value btn; resetInput := true |}
        | Throw e => Throw e
        end
      else
        Ok {| input_str := input_str st;
              storedValue := stod_or_zero (input_str st);
              currentOp := value btn; resetInput := true |}
    else
      Ok {| input_str := input_str st; storedValue := storedValue st;
            currentOp := value btn; resetInput := true |}
  else if String.eqb (type btn) "clear" then
    Ok {| input_str := "0"; storedValue := Double.zero;
          currentOp := NUL; resetInput := true |}
  else if String.eqb (type btn) "equals" then
    Ok (calculate_result st)
  else Ok st.

(** [btn.label[0]] *)
Definition first_char (s : string) : ascii :=
  match s with
  | String c _ => c
  | EmptyString => NUL
  end.

Definition make_button (l t : string) : Button :=
  {| label := l; type := t; value := first_char l |}.

(** The table of [layout_buttons], in its order. *)
Definition labels : list (string * string) :=
  [ ("7", "number"); ("8", "number"); ("9", "number"); ("/", "operator");
    ("4", "number"); ("5", "number"); ("6", "number"); ("*", "operator");
    ("1", "number"); ("2", "number"); ("3", "number"); ("-", "operator");
    (".", "number"); ("0", "number"); ("C", "clear");   ("+", "operator");
    ("=", "equals") ].

Definition buttons : list Button :=
  map (fun lt => make_button (fst lt) (snd lt)) labels.

(** The tokens of the specification, as the buttons that stand for them. *)
Definition Digit (c : ascii) : Button := make_button (String c "") "number".
Definition DecimalPoint : Button := make_button "." "number".
Definition BinaryOp (c : ascii) : Button :=
  make_button (String c "") "operator".
Definition Clear : Button := make_button "C" "clear".
Definition Equals : Button := make_button "=" "equals".

Definition is_digit (c : ascii) : bool :=
  match digit_val c with Some _ => true | None => false end.

Definition is_operator (c : ascii) : bool :=
  Ascii.eqb c "+" || Ascii.eqb c "-" || Ascii.eqb c "*" || Ascii.eqb c "/".

(** The presses of the event loop, one after the other, from [st]. *)
Fixpoint run (presses : list Button) (st : State) : result State :=
  match presses with
  | [] => Ok st
  | btn :: rest =>
      match handle_button_press btn st with
      | Ok st' => run rest st'
      | Throw e => Throw e
      end
  end.

(** *** Geometry and the mouse *)

Definition WINDOW_WIDTH : Z := 400.
Definition WINDOW_HEIGHT : Z := 550.
Definition BUTTON_WIDTH : Z := 90.
Definition BUTTON_HEIGHT : Z := 70.
Definition PADDING : Z := 8.

(** [Button::is_hovered], on the button's [rect]. *)
Definition is_hovered (rect : SDL.SDL_Rect) (mouse_x mouse_y : Z) : bool :=
  (SDL.x rect <=? mouse_x) && (mouse_x <=? SDL.x rect + SDL.w rect)
  && (SDL.y rect <=? mouse_y) && (mouse_y <=? SDL.y rect + SDL.h rect).

(** The loop of [layout_buttons] from index [i] on, with its cursor
    [(current_x, current_y)]: each button with the rectangle it gets.  The
    loop ends after the equals button. *)
Fixpoint layout_from (i current_x current_y : Z) (ls : list (string * string))
    : list (SDL.SDL_Rect * Button) :=
  match ls with
  | [] => []
  | lt :: rest =>
      let btn := make_button (fst lt) (snd lt) in
      let rect :=
        if String.eqb (type btn) "equals" then
          {| SDL.x := current_x; SDL.y := current_y;
             SDL.w := WINDOW_WIDTH - 2 * PADDING; SDL.h := BUTTON_HEIGHT |}
        else
          {| SDL.x := current_x; SDL.y := current_y;
             SDL.w := BUTTON_WIDTH; SDL.h := BUTTON_HEIGHT |} in
      (rect, btn) ::
      (if negb (String.eqb (type btn) "equals") then
         if (i + 1) mod 4 =? 0 then
           layout_from (i + 1) PADDING (current_y + BUTTON_HEIGHT + PADDING)
             rest
         else
           layout_from (i + 1) (current_x + BUTTON_WIDTH + PADDING) current_y
             rest
       else [])
  end.

(** [layout_buttons()]: the buttons with their rectangles, below the
    display area. *)
Definition layout_buttons : list (SDL.SDL_Rect * Button) :=
  layout_from 0 PADDING (100 + PADDING) labels.

(** [display_rect] of the drawing code. *)
Definition display_rect : SDL.SDL_Rect :=
  {| SDL.x := PADDING; SDL.y := PADDING;
     SDL.w := WINDOW_WIDTH - 2 * PADDING; SDL.h := 80 |}.

(** The left-button [SDL_MOUSEBUTTONDOWN] case of the event loop: the first
    button under the pointer is pressed and the search stops. *)
Fixpoint mouse_button_down (bs : list (SDL.SDL_Rect * Button))
    (mouse_x mouse_y : Z) (st : State) : result State :=
  match bs with
  | [] => Ok st
  | rb :: rest =>
      if is_hovered (fst rb) mouse_x mouse_y
      then handle_button_press (snd rb) st
      else mouse_button_down rest mouse_x mouse_y st
  end.

End Calculator.

(** ** The add-on header ([enhancer.h]) *)

Module Enhancer.

Record HistoryEntry := {
  expression : string;
  result : string
}.

(** [CalculatorHistory]: the deque [history], front first. *)
Definition CalculatorHistory := list HistoryEntry.

Definition maxHistory : nat := 10.

Definition empty : CalculatorHistory := [].

Definition addEntry (expr res : string) (history : CalculatorHistory)
    : CalculatorHistory :=
  let history := {| expression := expr; result := res |} :: history in
  if (maxHistory <? List.length history)%nat then removelast history
  else history.

Definition clear (history : CalculatorHistory) : CalculatorHistory := [].

Definition getHistory (history : CalculatorHistory) : list HistoryEntry :=
  history.

(** [display.pop_back()] *)
Fixpoint pop_back (s : string) : string :=
  match s with
  | EmptyString => EmptyString
  | String _ EmptyString => EmptyString
  | String c r => String c (pop_back r)
  end.

Definition backspaceInput (display : string) : string :=
  if (1 <? String.length display)%nat then pop_back display else "0".

Definition safeCalculate (a b : Double.double) (op : ascii) : string :=
  (* the switch: an early return, or [result] *)
  let r : string + Double.double :=
    if Ascii.eqb op "+" then inr (Double.add a b)
    else if Ascii.eqb op "-" then inr (Double.sub a b)
    else if Ascii.eqb op "*" then inr (Double.mul a b)
    else if Ascii.eqb op "/" then
      if Double.eqb b Double.zero then inl "Error: Div by 0"
      else inr (Double.div a b)
    else inl "Error" in
  match r with
  | inl s => s
  | inr result =>
      if Double.isnan result || Double.isinf result then "Error"
      else Cxx.to_string result
  end.

(** [isValidNumber] *)
Definition isValidNumber (str : string) : bool :=
  if String.eqb str "" || String.eqb str "Error" || String.eqb str "Infinity"
  then false
  else
    match Cxx.stod str with
    | Cxx.Ok _ => true
    | Cxx.Throw _ => false
    end.

(** [ScientificCalculator::square] (the other methods call [libm]). *)
Module ScientificCalculator.

Definition square (x : Double.double) : Double.double := Double.mul x x.

End ScientificCalculator.

(** [CalculatorMemory]: the object is its field [memory]. *)
Module CalculatorMemory.

Record CalculatorMemory := { memory : Double.double }.

Definition initial : CalculatorMemory := {| memory := Double.zero |}.

Definition clear (m : CalculatorMemory) : CalculatorMemory :=
  {| memory := Double.zero |}.

Definition add (value : Double.double) (m : CalculatorMemory)
    : CalculatorMemory :=
  {| memory := Double.add (memory m) value |}.

Definition subtract (value : Double.double) (m : CalculatorMemory)
    : CalculatorMemory :=
  {| memory := Double.sub (memory m) value |}.

Definition store (value : Double.double) (m : CalculatorMemory)
    : CalculatorMemory :=
  {| memory := value |}.

Definition recall (m : CalculatorMemory) : Double.double := memory m.

Definition hasMemory (m : CalculatorMemory) : bool :=
  negb (Double.eqb (memory m) Double.zero).

End CalculatorMemory.

(** [ButtonAnimator], with the value of [SDL_GetTicks()] at each call as
    the argument [ticks]. *)
Module ButtonAnimator.

Record ButtonAnimator := {
  animRect : SDL.SDL_Rect;
  animStartTime : Z   (* Uint32 *)
}.

Definition animDuration : Z := 100.

Definition initial : ButtonAnimator :=
  {| animRect := {| SDL.x := 0; SDL.y := 0; SDL.w := 0; SDL.h := 0 |};
     animStartTime := 0 |}.

Definition triggerAnimation (rect : SDL.SDL_Rect) (ticks : Z)
    (a : ButtonAnimator) : ButtonAnimator :=
  {| animRect := rect; animStartTime := SDL.Uint32 ticks |}.

Definition isAnimating (ticks : Z) (a : ButtonAnimator) : bool :=
  SDL.Uint32 (SDL.Uint32 ticks - animStartTime a) <=? animDuration.

(** C++ [float] is binary32; [(int)] of a float drops the fraction. *)
Definition float_of_Z (n : Z) : spec_float := binary_normalize 24 128 n 0 false.

Definition int_of_float (x : spec_float) : Z :=
  match x with
  | S754_finite s m e =>
      let n := if 0 <=? e then Zpos m * 2 ^ e else Zpos m / 2 ^ (- e) in
      if s then - n else n
  | _ => 0
  end.

(** [draw]: nothing once the animation is over; otherwise the alpha passed
    to [SDL_SetRenderDrawColor] (an [int], taken as [Uint8]) with the colour
    (100, 150, 255), and the rectangle filled. *)
Definition draw (ticks : Z) (a : ButtonAnimator) : option (Z * SDL.SDL_Rect) :=
  let elapsed := SDL.Uint32 (SDL.Uint32 ticks - animStartTime a) in
  if animDuration <? elapsed then None
  else
    let progress :=
      SFdiv 24 128 (float_of_Z elapsed) (float_of_Z animDuration) in
    let alpha :=
      int_of_float
        (SFmul 24 128 (float_of_Z 255)
           (SFsub 24 128 (float_of_Z 1) progress)) in
    Some (alpha mod 256, animRect a).

End ButtonAnimator.

End Enhancer.

(** ** The first calculator ([code.cpp]): the click handling of its [main] *)

Module GuiCalculator.

Import Cxx.

Record Button := {
  rect : SDL.SDL_Rect;
  label : string
}.

Definition inRect (mx my : Z) (rect : SDL.SDL_Rect) : bool :=
  (SDL.x rect <=? mx) && (mx <=? SDL.x rect + SDL.w rect)
  && (SDL.y rect <=? my) && (my <=? SDL.y rect + SDL.h rect).

Definition button (x y w h : Z) (l : string) : Button :=
  {| rect := {| SDL.x := x; SDL.y := y; SDL.w := w; SDL.h := h |};
     label := l |}.

(** The vector [buttons] of [main]. *)
Definition buttons : list Button :=
  [ button 20 120 60 60 "7"; button 110 120 60 60 "8"; button 200 120 60 60 "9";
    button 20 200 60 60 "4"; button 110 200 60 60 "5"; button 200 200 60 60 "6";
    button 20 280 60 60 "1"; button 110 280 60 60 "2"; button 200 280 60 60 "3";
    button 20 360 60 60 "C"; button 110 360 60 60 "0"; button 200 360 60 60 "=";
    button 260 120 30 60 "+";
    button 260 200 30 60 "-";
    button 260 280 30 60 "*";
    button 260 360 30 60 "/" ].

(** The locals [display], [a], [b], [op] of [main]. *)
Record State := {
  display : string;
  a : Double.double;
  b : Double.double;
  op : ascii
}.

Definition initial : State :=
  {| display := ""; a := Double.zero; b := Double.zero;
     op := Calculator.NUL |}.

(** The body of the loop for a button with label [l] under the pointer.  No
    [std::stod] here has a handler: an exception ends [main]. *)
Definition press (l : string) (st : State) : result State :=
  if String.eqb l "C" then
    Ok {| display := ""; a := a st; b := b st; op := Calculator.NUL |}
  else if String.eqb l "+" || String.eqb l "-" || String.eqb l "*"
          || String.eqb l "/" then
    match stod (display st) with
    | Ok v =>
        Ok {| display := ""; a := v; b := b st;
              op := Calculator.first_char l |}
    | Throw e => Throw e
    end
  else if String.eqb l "=" then
    match stod (display st) with
    | Ok v =>
        let r :=
          if Ascii.eqb (op st) "+" then Double.add (a st) v
          else if Ascii.eqb (op st) "-" then Double.sub (a st) v
          else if Ascii.eqb (op st) "*" then Double.mul (a st) v
          else if Ascii.eqb (op st) "/" then
            if Double.eqb v Double.zero then Double.zero
            else Double.div (a st) v
          else Double.zero in
        Ok {| display := to_string r; a := a st; b := v; op := op st |}
    | Throw e => Throw e
    end
  else
    Ok {| display := display st ++ l; a := a st; b := b st; op := op st |}.

(** The [SDL_MOUSEBUTTONDOWN] case: every button under the pointer is
    processed, in the order of the vector (the loop has no [break]). *)
Fixpoint mouse_button_down (bs : list Button) (mx my : Z) (st : State)
    : result State :=
  match bs with
  | [] => Ok st
  | btn :: rest =>
      if inRect mx my (rect btn) then
        match press (label btn) st with
        | Ok st' => mouse_button_down rest mx my st'
        | Throw e => Throw e
        end
      else mouse_button_down rest mx my st
  end.

End GuiCalculator.

(** ** Vocabulary of the statements *)

(** What the [switch] of [calculate_result] and of [safeCalculate] computes
    for the operators [+ - * /] (the division as it is done once the divisor
    passed the zero test). *)
Definition arithmetic (op : ascii) (a b : Double.double) : Double.double :=
  if Ascii.eqb op "+" then Double.add a b
  else if Ascii.eqb op "-" then Double.sub a b
  else if Ascii.eqb op "*" then Double.mul a b
  else if Ascii.eqb op "/" then Double.div a b
  else Double.zero.

(** [addEntry] called for each entry of [es] in turn, on [history]. *)
Definition add_entries (es : list Enhancer.HistoryEntry)
    (history : Enhancer.CalculatorHistory) : Enhancer.CalculatorHistory :=
  fold_left
    (fun h e => Enhancer.addEntry (Enhancer.expression e) (Enhancer.result e) h)
    es history.

(** The significant digits [%.10g] shows for a non-zero finite [val]
    (trailing zeros dropped) and the decimal exponent that goes with them. *)
Definition shown_digits (val : Double.double) : list Z :=
  Cxx.trim
    (Cxx.digits_of 10
       (fst (Cxx.significand 10 (fst (Double.magnitude val))
               (snd (Double.magnitude val))))).

Definition shown_exponent (val : Double.double) : Z :=
  snd (Cxx.significand 10 (fst (Double.magnitude val))
         (snd (Double.magnitude val))).

(** The integer nearest to [|val|]. *)
Definition nearest_integer (val : Double.double) : Z :=
  Cxx.round_div (fst (Double.magnitude val)) (snd (Double.magnitude val)).

(** The number that the decimal digits [ds], the highest first, write. *)
Definition decimal_value (ds : list Z) : Z :=
  fold_left (fun a d => 10 * a + d) ds 0.

(** The digits [ds] of a numeral of 10 significant digits whose trailing
    zeros were left out, as the integer of all 10 digits. *)
Definition ten_digits (ds : list Z) : Z :=
  decimal_value ds * 10 ^ (10 - Z.of_nat (List.length ds)).




(** Leading zeros removed. *)
Fixpoint drop_zeros (cs : list ascii) : list ascii :=
  match cs with
  | c :: r => if Ascii.eqb c "0" then drop_zeros r else cs
  | [] => []
  end.

(** The numeral that typing the digits [cs] gives: [cs] without its leading
    zeros, and ["0"] when nothing is left. *)
Definition typed_number (cs : list ascii) : string :=
  match drop_zeros cs with
  | [] => "0"
  | r => string_of_list_ascii r
  end.

(** Does [s] start with a decimal digit? *)
Definition leading_digit (s : string) : bool :=
  match s with
  | String c _ => Calculator.is_digit c
  | EmptyString => false
  end.

(** How often [c] occurs in [s]. *)
Fixpoint occurrences (c : ascii) (s : string) : nat :=
  match s with
  | EmptyString => O
  | String a r => ((if Ascii.eqb a c then 1 else 0) + occurrences c r)%nat
  end.

(** What holds of every state the buttons of the window lead to: the buffer
    is not empty and has at most one decimal point, and the pending operator
    is none or one of [+ - * /]. *)
Definition well_formed (st : Calculator.State) : Prop :=
  Calculator.input_str st <> ""
  /\ (occurrences "." (Calculator.input_str st) <= 1)%nat
  /\ (Calculator.currentOp st = Calculator.NUL
      \/ Calculator.is_operator (Calculator.currentOp st) = true).

(** Two rectangles that no point is in at once (their closed extents are
    apart in one direction). *)
Definition apart (r1 r2 : SDL.SDL_Rect) : bool :=
  (SDL.x r1 + SDL.w r1 <? SDL.x r2) || (SDL.x r2 + SDL.w r2 <? SDL.x r1)
  || (SDL.y r1 + SDL.h r1 <? SDL.y r2) || (SDL.y r2 + SDL.h r2 <? SDL.y r1).

Fixpoint pairwise_apart (rs : list SDL.SDL_Rect) : bool :=
  match rs with
  | [] => true
  | r :: rest => forallb (apart r) rest && pairwise_apart rest
  end.

(** A rectangle inside the window. *)
Definition in_window (r : SDL.SDL_Rect) : bool :=
  (0 <=? SDL.x r) && (SDL.x r + SDL.w r <? Calculator.WINDOW_WIDTH)
  && (0 <=? SDL.y r) && (SDL.y r + SDL.h r <? Calculator.WINDOW_HEIGHT).

(** * Properties *)

Import Cxx Calculator Enhancer.

(** ** Characters and strings *)

Lemma digit_is_not_point (c : ascii) :
  is_digit c = true -> Ascii.eqb c "." = false.
Proof.
  intros H. destruct (Ascii.eqb_spec c ".") as [-> | _]; [ | reflexivity ].
  vm_compute in H. discriminate.
Qed.

Lemma contains_app (c : ascii) (s t : string) :
  contains c (s ++ t) = contains c s || contains c t.
Proof.
  induction s as [ | a s IH ]; simpl; [ reflexivity | ].
  rewrite IH. apply orb_assoc.
Qed.

Lemma length_pop_back (c : ascii) (s : string) :
  String.length (pop_back (String c s)) = String.length s.
Proof.
  revert c. induction s as [ | a s IH ]; intros c; [ reflexivity | ].
  change (pop_back (String c (String a s))) with (String c (pop_back (String a s))).
  cbn [String.length]. f_equal. apply IH.
Qed.

Lemma pop_back_last (c : ascii) (s : string) :
  exists l, String c s = pop_back (String c s) ++ String l "".
Proof.
  revert c. induction s as [ | a s IH ]; intros c.
  - exists c. reflexivity.
  - destruct (IH a) as [l Hl]. exists l.
    change (pop_back (String c (String a s))) with (String c (pop_back (String a s))).
    cbn [append]. f_equal. exact Hl.
Qed.

(** ** The library models on known values

    What glibc and libstdc++ give for the same calls. *)

Example stod_accepts :
  stod "12" = Ok (Double.of_Z 12)
  /\ stod "  12" = Ok (Double.of_Z 12)
  /\ stod "0." = Ok (S754_zero false)
  /\ stod ".5" = Ok (Double.of_ratio false 1 2)
  /\ stod "-0" = Ok (S754_zero true)
  /\ stod "1.5abc" = Ok (Double.of_ratio false 3 2)
  /\ stod "1e" = Ok (Double.of_Z 1)
  /\ stod "1e-07" = Ok (Double.of_ratio false 1 10000000)
  /\ stod "0x1p3" = Ok (Double.of_Z 8)
  /\ stod "0x" = Ok (S754_zero false)
  /\ stod "-inf" = Ok (S754_infinity true)
  /\ stod "NaN(abc)" = Ok S754_nan
  /\ stod "0x1p-1074" = Ok (S754_finite false 1 (-1074)).
Proof. repeat (split; [ vm_compute; reflexivity | ]). vm_compute. reflexivity. Qed.

Example stod_throws :
  stod "" = Throw invalid_argument
  /\ stod "." = Throw invalid_argument
  /\ stod "+-5" = Throw invalid_argument
  /\ stod "Error" = Throw invalid_argument
  /\ stod "Error: Div by 0" = Throw invalid_argument
  /\ stod "1e309" = Throw out_of_range
  /\ stod "1e-320" = Throw out_of_range
  /\ stod "0x1p-1075" = Throw out_of_range.
Proof. repeat (split; [ vm_compute; reflexivity | ]). vm_compute. reflexivity. Qed.

(** Underflow: the number read is below the normal range, also after
    rounding to 53 bits, and the double differs from it.  The least normal
    double is 2.2250738585072014e-308. *)
Example stod_underflow :
  stod "2.2250738585072014e-308" = Ok (S754_finite false 4503599627370496 (-1074))
  /\ stod "2.2250738585072013e-308" = Ok (S754_finite false 4503599627370496 (-1074))
  /\ stod "2.2250738585072012e-308" = Throw out_of_range
  /\ stod "2.2250738585072009e-308" = Throw out_of_range
  /\ stod "0x0.fffffffffffffp-1022" = Ok (S754_finite false 4503599627370495 (-1074))
  /\ stod "0x0.fffffffffffff8p-1022" = Throw out_of_range
  /\ stod "0x0.fffffffffffffcp-1022" = Ok (S754_finite false 4503599627370496 (-1074))
  /\ stod "4.9e-324" = Throw out_of_range
  /\ stod "0x1.8p-1073" = Ok (S754_finite false 3 (-1074)).
Proof. repeat (split; [ vm_compute; reflexivity | ]). vm_compute. reflexivity. Qed.

Example format_double_shows :
  format_double (Double.of_Z 20) = "20"
  /\ format_double (S754_zero true) = "-0"
  /\ format_double (Double.of_ratio true 3 10) = "-0.3"
  /\ format_double (Double.of_ratio false 99999999999 100000000000) = "1"
  /\ format_double (Double.of_ratio false 2469135781 2) = "1234567890"
  /\ format_double (Double.of_ratio false 24691357803 2) = "1.23456789e+10"
  /\ format_double (Double.of_ratio false 19999999999 2) = "1e+10"
  /\ format_double (Double.of_ratio false 1 10000) = "0.0001"
  /\ format_double (Double.of_ratio false 1 100000) = "1e-05"
  /\ format_double (Double.of_ratio true 25 10000000000) = "-2.5e-09"
  /\ format_double (Double.of_Z (10 ^ 22)) = "10000000000000000000000"
  /\ format_double (S754_infinity true) = "-inf".
Proof. repeat (split; [ vm_compute; reflexivity | ]). vm_compute. reflexivity. Qed.

Example to_string_shows :
  to_string (Double.of_Z 5) = "5.000000"
  /\ to_string (Double.of_ratio false 1 3) = "0.333333"
  /\ to_string (Double.of_ratio false 1 10000000) = "0.000000"
  /\ to_string (Double.of_ratio true 3 10) = "-0.300000".
Proof. repeat (split; [ vm_compute; reflexivity | ]). vm_compute. reflexivity. Qed.

(** ** Equals with nothing pending *)

(** C10: with no operator pending ([currentOp] is [char 0]) the equals
    button changes nothing: buffer, stored operand, pending operator and
    the new-entry flag are as before. *)
Theorem equals_without_pending_is_noop (st : State) :
  currentOp st = NUL ->
  calculate_result st = st /\ handle_button_press Equals st = Ok st.
Proof.
  intros H. unfold handle_button_press, calculate_result. simpl.
  rewrite H. simpl. split; reflexivity.
Qed.

Lemma equals_without_pending_is_noop_witness :
  currentOp initial = NUL
  /\ calculate_result initial = initial
  /\ handle_button_press Equals initial = Ok initial.
Proof.
  split; [ reflexivity | ].
  apply (equals_without_pending_is_noop initial). reflexivity.
Defined.

(** ** Operators *)

(** C8: an operator pressed right after another operator, with nothing
    typed in between, evaluates nothing: the display and the stored
    operand stay as the first press left them and the second operator is
    the pending one. *)
Theorem operator_after_operator_keeps_last (st st1 : State) (btn1 btn2 : Button) :
  type btn1 = "operator" ->
  type btn2 = "operator" ->
  handle_button_press btn1 st = Ok st1 ->
  handle_button_press btn2 st1 =
    Ok {| input_str := input_str st1; storedValue := storedValue st1;
          currentOp := value btn2; resetInput := true |}.
Proof.
  intros T1 T2 H1.
  assert (R : resetInput st1 = true).
  { unfold handle_button_press in H1. rewrite T1 in H1. simpl in H1.
    destruct (resetInput st); simpl in H1.
    - injection H1 as <-. reflexivity.
    - destruct (Ascii.eqb (currentOp st) NUL); simpl in H1.
      + injection H1 as <-. reflexivity.
      + destruct (stod (input_str (calculate_result st))); [ | discriminate ].
        injection H1 as <-. reflexivity. }
  unfold handle_button_press. rewrite T2. simpl. rewrite R. reflexivity.
Qed.

Lemma operator_after_operator_keeps_last_witness :
  handle_button_press (BinaryOp "-")
    {| input_str := "2"; storedValue := Double.of_Z 2;
       currentOp := "+"; resetInput := true |}
  = Ok {| input_str := "2"; storedValue := Double.of_Z 2;
          currentOp := "-"; resetInput := true |}.
Proof.
  apply (operator_after_operator_keeps_last
           {| input_str := "2"; storedValue := Double.zero;
              currentOp := NUL; resetInput := false |}
           {| input_str := "2"; storedValue := Double.of_Z 2;
              currentOp := "+"; resetInput := true |}
           (BinaryOp "+") (BinaryOp "-")); reflexivity.
Defined.

(** ** Digits and the decimal point *)

(** C7: a digit or decimal-point press.  While a number is being typed
    ([resetInput] false): a decimal point when the buffer has one changes
    nothing; a digit on the buffer ["0"] replaces it; anything else is
    appended.  When a new entry is awaited ([resetInput] true) the buffer
    becomes ["0."] for the decimal point and the digit otherwise, and the flag
    is cleared.  So [Clear 1 . . 5] shows ["1.5"]. *)
Theorem number_press (st : State) (c : ascii) :
  is_digit c = true ->
  (resetInput st = false ->
     (contains "." (input_str st) = true ->
        handle_button_press DecimalPoint st = Ok st)
     /\ (input_str st = "0" ->
        handle_button_press (Digit c) st =
          Ok {| input_str := String c ""; storedValue := storedValue st;
                currentOp := currentOp st; resetInput := false |})
     /\ (input_str st <> "0" ->
        handle_button_press (Digit c) st =
          Ok {| input_str := input_str st ++ String c "";
                storedValue := storedValue st;
                currentOp := currentOp st; resetInput := false |})
     /\ (contains "." (input_str st) = false ->
        handle_button_press DecimalPoint st =
          Ok {| input_str := input_str st ++ ".";
                storedValue := storedValue st;
                currentOp := currentOp st; resetInput := false |}))
  /\ (resetInput st = true ->
     handle_button_press DecimalPoint st =
       Ok {| input_str := "0."; storedValue := storedValue st;
             currentOp := currentOp st; resetInput := false |}
     /\ handle_button_press (Digit c) st =
       Ok {| input_str := String c ""; storedValue := storedValue st;
             currentOp := currentOp st; resetInput := false |})
  /\ run [Clear; Digit "1"; DecimalPoint; DecimalPoint; Digit "5"] st =
       Ok {| input_str := "1.5"; storedValue := Double.zero;
             currentOp := NUL; resetInput := false |}.
Proof.
  intros D. pose proof (digit_is_not_point c D) as P.
  split; [ | split ].
  - intros R. unfold handle_button_press, Digit, DecimalPoint, make_button.
    simpl. rewrite R, P. simpl.
    split; [ | split; [ | split ] ]; intros H.
    + rewrite H. reflexivity.
    + rewrite H. reflexivity.
    + apply String.eqb_neq in H. rewrite H. reflexivity.
    + rewrite H. rewrite andb_false_r. reflexivity.
  - intros R. unfold handle_button_press, Digit, DecimalPoint, make_button.
    simpl. rewrite R, P. split; reflexivity.
  - reflexivity.
Qed.

Lemma number_press_witness :
  handle_button_press (Digit "5")
    {| input_str := "1."; storedValue := Double.zero;
       currentOp := NUL; resetInput := false |}
  = Ok {| input_str := "1.5"; storedValue := Double.zero;
          currentOp := NUL; resetInput := false |}
  /\ handle_button_press DecimalPoint
    {| input_str := "1."; storedValue := Double.zero;
       currentOp := NUL; resetInput := false |}
  = Ok {| input_str := "1."; storedValue := Double.zero;
          currentOp := NUL; resetInput := false |}.
Proof.
  destruct (number_press
              {| input_str := "1."; storedValue := Double.zero;
                 currentOp := NUL; resetInput := false |} "5" eq_refl)
    as [H _].
  destruct (H eq_refl) as (H1 & _ & H3 & _). split.
  - apply H3. discriminate.
  - apply H1. reflexivity.
Defined.

(** ** History *)

Lemma addEntry_firstn (expr res : string) (history : CalculatorHistory) :
  (List.length history <= maxHistory)%nat ->
  addEntry expr res history =
    firstn maxHistory ({| expression := expr; result := res |} :: history).
Proof.
  intros L. unfold addEntry.
  destruct (Nat.ltb_spec maxHistory
              (List.length ({| expression := expr; result := res |} :: history)))
    as [G | G].
  - rewrite removelast_firstn_len. f_equal.
    simpl List.length in *. unfold maxHistory in *. lia.
  - symmetry. apply firstn_all2. exact G.
Qed.

Lemma add_entries_firstn (es : list HistoryEntry) :
  add_entries es empty = firstn maxHistory (rev es).
Proof.
  unfold add_entries.
  induction es as [ | e es IH ] using rev_ind; [ reflexivity | ].
  rewrite fold_left_app, rev_app_distr. simpl fold_left. rewrite IH.
  rewrite addEntry_firstn by (rewrite length_firstn; lia).
  destruct e as [x r]. unfold maxHistory. cbn [expression result rev app].
  change (firstn 10 ?l) with (firstn (S 9) l) at 1 3.
  rewrite !firstn_cons. f_equal. rewrite firstn_firstn. reflexivity.
Qed.

(** C9: every append puts the new entry at the front; starting from the
    empty log, the log is the 10 latest entries, the most recent first
    (so never more than 10, the oldest leaving at the back); 11 appends
    leave 10 entries, without the first one appended. *)
Theorem history_keeps_ten_latest (es : list HistoryEntry) (expr res : string) :
  getHistory (add_entries es empty) = firstn 10 (rev es)
  /\ (List.length (getHistory (add_entries es empty)) <= 10)%nat
  /\ hd_error (getHistory (addEntry expr res (add_entries es empty)))
     = Some {| expression := expr; result := res |}
  /\ (List.length es = 11%nat ->
      getHistory (add_entries es empty) = rev (tl es)
      /\ List.length (getHistory (add_entries es empty)) = 10%nat).
Proof.
  rewrite add_entries_firstn. unfold getHistory, maxHistory.
  split; [ reflexivity | ]. split; [ rewrite length_firstn; lia | ].
  split.
  - rewrite addEntry_firstn by (rewrite length_firstn; unfold maxHistory; lia).
    reflexivity.
  - intros L. destruct es as [ | e es ]; [ discriminate | ].
    simpl in L. simpl rev. simpl tl.
    rewrite firstn_app.
    replace (10 - List.length (rev es))%nat with 0%nat
      by (rewrite length_rev; lia).
    rewrite firstn_all2 by (rewrite length_rev; lia).
    simpl. rewrite app_nil_r. split; [ reflexivity | ].
    rewrite length_rev. lia.
Qed.

Lemma history_keeps_ten_latest_witness :
  let e (n : string) := {| expression := n; result := n |} in
  getHistory
    (add_entries
       [e "1"; e "2"; e "3"; e "4"; e "5"; e "6"; e "7"; e "8"; e "9";
        e "10"; e "11"] empty)
  = [e "11"; e "10"; e "9"; e "8"; e "7"; e "6"; e "5"; e "4"; e "3"; e "2"].
Proof.
  intros e.
  destruct (history_keeps_ten_latest
              [e "1"; e "2"; e "3"; e "4"; e "5"; e "6"; e "7"; e "8"; e "9";
               e "10"; e "11"] "" "") as (_ & _ & _ & H).
  destruct (H eq_refl) as [H1 _]. exact H1.
Defined.

(** ** Backspace *)

(** C4 fails for the error texts: they are longer than one character, so
    backspace removes their last character like that of any other buffer. *)
Lemma backspace_on_error_text :
  backspaceInput "Error" = "Erro"
  /\ backspaceInput "Error" <> "0"
  /\ backspaceInput "Error: Div by 0" = "Error: Div by ".
Proof.
  repeat split; try reflexivity. discriminate.
Qed.

(** C4, amended: backspace removes the last character of a buffer longer
    than one character, whatever the buffer holds, and sets a buffer of one
    character (or none) to ["0"]. *)
Theorem backspace_by_length (display : string) :
  ((1 < String.length display)%nat ->
     (exists c, display = backspaceInput display ++ String c "")
     /\ String.length (backspaceInput display) = (String.length display - 1)%nat)
  /\ ((String.length display <= 1)%nat -> backspaceInput display = "0").
Proof.
  unfold backspaceInput. split; intros L.
  - destruct (Nat.ltb_spec 1 (String.length display)) as [_ | G]; [ | lia ].
    destruct display as [ | c s ]; [ simpl in L; lia | ]. split.
    + apply pop_back_last.
    + rewrite length_pop_back. simpl. lia.
  - destruct (Nat.ltb_spec 1 (String.length display)) as [G | _]; [ lia | ].
    reflexivity.
Qed.

Lemma backspace_by_length_witness :
  (exists c, "12.5" = backspaceInput "12.5" ++ String c "")
  /\ String.length (backspaceInput "12.5") = 3%nat.
Proof.
  destruct (backspace_by_length "12.5") as [H _].
  apply H. simpl. lia.
Defined.

(** ** Division by zero *)

Lemma is_operator_cases (op : ascii) :
  is_operator op = true ->
  op = "+"%char \/ op = "-"%char \/ op = "*"%char \/ op = "/"%char.
Proof.
  unfold is_operator. intros H.
  destruct (Ascii.eqb_spec op "+"); [ now left | ].
  destruct (Ascii.eqb_spec op "-"); [ now right; left | ].
  destruct (Ascii.eqb_spec op "*"); [ now right; right; left | ].
  destruct (Ascii.eqb_spec op "/"); [ now right; right; right | ].
  discriminate.
Qed.

(** C1 fails on the text: the calculator writes ["Error"] when it divides
    by zero ([5 / 0 =]), not ["Error: Div by 0"]. *)
Lemma division_by_zero_text :
  currentOp {| input_str := "0"; storedValue := Double.of_Z 5;
               currentOp := "/"; resetInput := false |} = "/"%char
  /\ Double.eqb (stod_or_zero "0") Double.zero = true
  /\ run [Clear; Digit "5"; BinaryOp "/"; Digit "0"] initial =
       Ok {| input_str := "0"; storedValue := Double.of_Z 5;
             currentOp := "/"; resetInput := false |}
  /\ handle_button_press Equals
       {| input_str := "0"; storedValue := Double.of_Z 5;
          currentOp := "/"; resetInput := false |} =
       Ok {| input_str := "Error"; storedValue := Double.zero;
             currentOp := NUL; resetInput := true |}
  /\ "Error" <> "Error: Div by 0".
Proof.
  repeat split; try reflexivity. discriminate.
Qed.

(** C1, amended: with [/] pending and a right operand that parses to zero,
    equals sets the buffer to ["Error"], the stored operand to 0 and clears
    the pending operator; ["Error: Div by 0"] is what the stand-alone
    [safeCalculate] returns for such a divisor.  After the error, [Clear]
    and a digit start a fresh entry. *)
Theorem division_by_zero (st : State) :
  currentOp st = "/"%char ->
  Double.eqb (stod_or_zero (input_str st)) Double.zero = true ->
  handle_button_press Equals st =
    Ok {| input_str := "Error"; storedValue := Double.zero;
          currentOp := NUL; resetInput := true |}
  /\ (forall a, safeCalculate a (stod_or_zero (input_str st)) "/"
                = "Error: Div by 0")
  /\ run [Equals; Clear; Digit "1"] st =
       Ok {| input_str := "1"; storedValue := Double.zero;
             currentOp := NUL; resetInput := false |}.
Proof.
  intros P Z.
  assert (E : handle_button_press Equals st =
              Ok {| input_str := "Error"; storedValue := Double.zero;
                    currentOp := NUL; resetInput := true |}).
  { unfold handle_button_press, calculate_result. simpl.
    rewrite P. simpl. rewrite Z. reflexivity. }
  split; [ exact E | ]. split.
  - intros a. unfold safeCalculate. simpl. rewrite Z. reflexivity.
  - unfold run. rewrite E. reflexivity.
Qed.

Lemma division_by_zero_witness :
  handle_button_press Equals
    {| input_str := "0"; storedValue := Double.of_Z 5;
       currentOp := "/"; resetInput := false |} =
    Ok {| input_str := "Error"; storedValue := Double.zero;
          currentOp := NUL; resetInput := true |}.
Proof.
  apply (division_by_zero
           {| input_str := "0"; storedValue := Double.of_Z 5;
              currentOp := "/"; resetInput := false |});
    reflexivity.
Defined.

(** ** Exceptions out of the operator handler *)

(** The guarded paths of the operator handler: with nothing pending, or
    with a new entry awaited, an operator press returns whatever the buffer
    holds (a buffer that does not parse counts as 0.0). *)
Lemma operator_without_pending_returns (st : State) (btn : Button) :
  type btn = "operator" ->
  currentOp st = NUL \/ resetInput st = true ->
  handle_button_press btn st =
    Ok {| input_str := input_str st;
          storedValue :=
            if resetInput st then storedValue st
            else stod_or_zero (input_str st);
          currentOp := value btn; resetInput := true |}.
Proof.
  intros T H. unfold handle_button_press. rewrite T. simpl.
  destruct (resetInput st); simpl; [ reflexivity | ].
  destruct H as [H | H]; [ | discriminate ].
  rewrite H. reflexivity.
Qed.

(** C3 at its failing input: after [Clear 5 / 0] an operator press first
    evaluates the pending division, which leaves ["Error"] in the buffer,
    and then parses the buffer with no handler around the call:
    [std::invalid_argument] leaves [handle_button_press]. *)
Theorem operator_after_division_by_zero_throws :
  run [Clear; Digit "5"; BinaryOp "/"; Digit "0"] initial =
    Ok {| input_str := "0"; storedValue := Double.of_Z 5;
          currentOp := "/"; resetInput := false |}
  /\ input_str (calculate_result
                  {| input_str := "0"; storedValue := Double.of_Z 5;
                     currentOp := "/"; resetInput := false |}) = "Error"
  /\ stod "Error" = Throw invalid_argument
  /\ handle_button_press (BinaryOp "+")
       {| input_str := "0"; storedValue := Double.of_Z 5;
          currentOp := "/"; resetInput := false |} = Throw invalid_argument.
Proof.
  repeat split; reflexivity.
Qed.

(** ** Evaluating the pending operation *)

Lemma operator_is_not_NUL (op : ascii) :
  is_operator op = true -> Ascii.eqb op NUL = false.
Proof.
  intros H.
  destruct (is_operator_cases op H) as [-> | [-> | [-> | ->]]]; reflexivity.
Qed.

(** Apart from a division by zero, evaluation shows the formatted result,
    keeps the result as stored operand and clears the pending operator. *)
Lemma calculate_result_arithmetic (st : State) :
  is_operator (currentOp st) = true ->
  (currentOp st = "/"%char ->
   Double.eqb (stod_or_zero (input_str st)) Double.zero = false) ->
  calculate_result st =
    {| input_str :=
         format_double
           (arithmetic (currentOp st) (storedValue st)
              (stod_or_zero (input_str st)));
       storedValue :=
         arithmetic (currentOp st) (storedValue st)
           (stod_or_zero (input_str st));
       currentOp := NUL; resetInput := true |}.
Proof.
  intros O Z. unfold calculate_result, arithmetic.
  rewrite (operator_is_not_NUL _ O).
  destruct (is_operator_cases _ O) as [E | [E | [E | E]]]; rewrite E; simpl;
    try reflexivity.
  rewrite (Z E). reflexivity.
Qed.

(** C5 fails in the calculator: [1e308 * 10 =] overflows, and the buffer
    shows ["inf"], with the infinity kept as stored operand. *)
Lemma overflow_shows_inf :
  Double.isinf (arithmetic "*" (stod_or_zero "1e308") (stod_or_zero "10")) = true
  /\ run ([Clear; Digit "1"] ++ repeat (Digit "0") 308 ++ [BinaryOp "*"; Digit "1"; Digit "0"])
         initial =
       Ok {| input_str := "10"; storedValue := stod_or_zero "1e308";
             currentOp := "*"; resetInput := false |}
  /\ handle_button_press Equals
       {| input_str := "10"; storedValue := stod_or_zero "1e308";
          currentOp := "*"; resetInput := false |} =
       Ok {| input_str := "inf"; storedValue := S754_infinity false;
             currentOp := NUL; resetInput := true |}
  /\ "inf" <> "Error"
  /\ S754_infinity false <> Double.zero.
Proof.
  split; [ vm_compute; reflexivity | ].
  split; [ vm_compute; reflexivity | ].
  split; [ vm_compute; reflexivity | ].
  split; discriminate.
Qed.

(** C5, amended: [safeCalculate] returns ["Error"] when the result of the
    operation is NaN or infinite.  The calculator's own evaluation has no such
    test: it shows the formatted result (["inf"] or ["-inf"] for an
    infinity), keeps the result as stored operand, and clears the pending
    operator. *)
Theorem nonfinite_result (st : State) :
  is_operator (currentOp st) = true ->
  (currentOp st = "/"%char ->
   Double.eqb (stod_or_zero (input_str st)) Double.zero = false) ->
  Double.isnan
    (arithmetic (currentOp st) (storedValue st) (stod_or_zero (input_str st)))
  || Double.isinf
    (arithmetic (currentOp st) (storedValue st) (stod_or_zero (input_str st)))
  = true ->
  safeCalculate (storedValue st) (stod_or_zero (input_str st)) (currentOp st)
    = "Error"
  /\ handle_button_press Equals st =
       Ok {| input_str :=
               format_double
                 (arithmetic (currentOp st) (storedValue st)
                    (stod_or_zero (input_str st)));
             storedValue :=
               arithmetic (currentOp st) (storedValue st)
                 (stod_or_zero (input_str st));
             currentOp := NUL; resetInput := true |}
  /\ (forall s,
        arithmetic (currentOp st) (storedValue st)
          (stod_or_zero (input_str st)) = S754_infinity s ->
        input_str (calculate_result st) = sign s ++ "inf"
        /\ forall btn,
             type btn = "operator" -> resetInput st = false ->
             handle_button_press btn st =
               Ok {| input_str := sign s ++ "inf";
                     storedValue := S754_infinity s;
                     currentOp := value btn; resetInput := true |}).
Proof.
  intros O Z N. split; [ | split ].
  - unfold safeCalculate. unfold arithmetic in N.
    destruct (is_operator_cases _ O) as [E | [E | [E | E]]];
      rewrite E in *; simpl in *; try (rewrite N; reflexivity).
    rewrite (Z eq_refl). rewrite N. reflexivity.
  - unfold handle_button_press. simpl.
    rewrite (calculate_result_arithmetic st O Z). reflexivity.
  - intros s I.
    assert (F : format_double (S754_infinity s) = sign s ++ "inf")
      by (destruct s; reflexivity).
    split.
    + rewrite (calculate_result_arithmetic st O Z). cbn [input_str].
      rewrite I. exact F.
    + intros btn T R. unfold handle_button_press. rewrite T.
      cbn [String.eqb Ascii.eqb Bool.eqb]. rewrite R. cbn [negb].
      rewrite (operator_is_not_NUL _ O). cbn [negb].
      rewrite (calculate_result_arithmetic st O Z). cbn [input_str].
      rewrite I, F. destruct s; reflexivity.
Qed.

Lemma nonfinite_result_witness :
  safeCalculate (stod_or_zero "1e308") (stod_or_zero "10") "*" = "Error"
  /\ handle_button_press Equals
       {| input_str := "10"; storedValue := stod_or_zero "1e308";
          currentOp := "*"; resetInput := false |} =
       Ok {| input_str := "inf"; storedValue := S754_infinity false;
             currentOp := NUL; resetInput := true |}.
Proof.
  destruct (nonfinite_result
              {| input_str := "10"; storedValue := stod_or_zero "1e308";
                 currentOp := "*"; resetInput := false |})
    as (H1 & H2 & _).
  - reflexivity.
  - discriminate.
  - vm_compute. reflexivity.
  - split; [ exact H1 | exact H2 ].
Defined.

(** ** Chained operators *)

(** C2 fails on what is fed back: after [1 / 3] a second operator stores
    0.3333333333, the number read back from the display, where the pending
    division gave the double nearest to 1/3; so [1 / 3 * 30000 =] shows
    ["9999.999999"]. *)
Lemma chained_operand_is_read_from_display :
  run [Clear; Digit "1"; BinaryOp "/"; Digit "3"] initial =
    Ok {| input_str := "3"; storedValue := Double.of_Z 1;
          currentOp := "/"; resetInput := false |}
  /\ handle_button_press (BinaryOp "*")
       {| input_str := "3"; storedValue := Double.of_Z 1;
          currentOp := "/"; resetInput := false |} =
       Ok {| input_str := "0.3333333333";
             storedValue := Double.of_ratio false 3333333333 10000000000;
             currentOp := "*"; resetInput := true |}
  /\ Double.of_ratio false 3333333333 10000000000
     <> arithmetic "/" (Double.of_Z 1) (stod_or_zero "3")
  /\ run [Clear; Digit "1"; BinaryOp "/"; Digit "3"; BinaryOp "*";
          Digit "3"; Digit "0"; Digit "0"; Digit "0"; Digit "0"; Equals]
       initial =
       Ok {| input_str := "9999.999999";
             storedValue :=
               Double.mul (Double.of_ratio false 3333333333 10000000000)
                 (Double.of_Z 30000);
             currentOp := NUL; resetInput := true |}
  /\ format_double
       (Double.mul (arithmetic "/" (Double.of_Z 1) (stod_or_zero "3"))
          (Double.of_Z 30000)) = "10000".
Proof.
  split; [ vm_compute; reflexivity | ].
  split; [ vm_compute; reflexivity | ].
  split; [ vm_compute; discriminate | ].
  split; vm_compute; reflexivity.
Qed.

(** C2, amended: a second operator, pressed when one is pending and an
    operand has been typed, evaluates the pending operation on the stored
    operand and the typed one, shows the formatted result, and stores the
    number read back from that display (the result as far as its 10 digits
    show it) as the new left operand, the new operator pending; nothing has
    precedence, and [Clear 2 + 3 * 4 =] shows ["20"]. *)
Theorem chained_operator (st : State) (btn : Button) (v : Double.double) :
  type btn = "operator" ->
  resetInput st = false ->
  is_operator (currentOp st) = true ->
  (currentOp st = "/"%char ->
   Double.eqb (stod_or_zero (input_str st)) Double.zero = false) ->
  stod (format_double
          (arithmetic (currentOp st) (storedValue st)
             (stod_or_zero (input_str st)))) = Ok v ->
  handle_button_press btn st =
    Ok {| input_str :=
            format_double
              (arithmetic (currentOp st) (storedValue st)
                 (stod_or_zero (input_str st)));
          storedValue := v;
          currentOp := value btn; resetInput := true |}
  /\ run [Clear; Digit "2"; BinaryOp "+"; Digit "3"; BinaryOp "*"; Digit "4";
          Equals] st =
       Ok {| input_str := "20"; storedValue := Double.of_Z 20;
             currentOp := NUL; resetInput := true |}.
Proof.
  intros T R O Z V. split; [ | vm_compute; reflexivity ].
  unfold handle_button_press. rewrite T. simpl. rewrite R. simpl.
  rewrite (operator_is_not_NUL _ O). simpl.
  rewrite (calculate_result_arithmetic st O Z). simpl.
  rewrite V. reflexivity.
Qed.

Lemma chained_operator_witness :
  handle_button_press (BinaryOp "*")
    {| input_str := "3"; storedValue := Double.of_Z 2;
       currentOp := "+"; resetInput := false |} =
    Ok {| input_str := "5"; storedValue := Double.of_Z 5;
          currentOp := "*"; resetInput := true |}.
Proof.
  destruct (chained_operator
              {| input_str := "3"; storedValue := Double.of_Z 2;
                 currentOp := "+"; resetInput := false |}
              (BinaryOp "*") (Double.of_Z 5)) as [H _].
  - reflexivity.
  - reflexivity.
  - reflexivity.
  - discriminate.
  - vm_compute. reflexivity.
  - exact H.
Defined.

(** ** The formatter *)

Lemma digit_char_is_not (c : ascii) (d : Z) :
  is_digit c = false -> 0 <= d < 10 -> Ascii.eqb (digit_char d) c = false.
Proof.
  intros C D. destruct (Ascii.eqb_spec (digit_char d) c) as [<- | _];
    [ | reflexivity ].
  assert (d = 0 \/ d = 1 \/ d = 2 \/ d = 3 \/ d = 4 \/ d = 5 \/ d = 6
          \/ d = 7 \/ d = 8 \/ d = 9) as E by lia.
  repeat (destruct E as [-> | E]; [ vm_compute in C; discriminate | ]).
  subst d. vm_compute in C. discriminate.
Qed.

Lemma contains_numeral (c : ascii) (ds : list Z) :
  is_digit c = false -> Forall (fun d => 0 <= d < 10) ds ->
  contains c (numeral ds) = false.
Proof.
  intros C F. induction F as [ | d ds D _ IH ]; [ reflexivity | ].
  unfold numeral in *. simpl. rewrite IH.
  rewrite (digit_char_is_not c d C D). reflexivity.
Qed.

Lemma contains_string_of_uint (c : ascii) (u : Decimal.uint) :
  is_digit c = false -> contains c (NilEmpty.string_of_uint u) = false.
Proof.
  intros C.
  induction u as [ | u IH | u IH | u IH | u IH | u IH | u IH | u IH | u IH
                   | u IH | u IH ];
    cbn [contains NilEmpty.string_of_uint]; [ reflexivity | .. ]; rewrite IH;
    match goal with
    | |- Ascii.eqb ?a c || false = false =>
        destruct (Ascii.eqb_spec a c) as [<- | _];
        [ vm_compute in C; discriminate | reflexivity ]
    end.
Qed.

Lemma contains_dec (c : ascii) (n : Z) :
  is_digit c = false -> contains c (dec n) = false.
Proof. intros C. apply contains_string_of_uint. exact C. Qed.

Lemma contains_sign (c : ascii) (s : bool) :
  Ascii.eqb "-" c = false -> contains c (sign s) = false.
Proof.
  intros C. destruct s; unfold sign; cbn [contains];
    [ now rewrite C | reflexivity ].
Qed.


Lemma length_digits_of (w : nat) (n : Z) : List.length (digits_of w n) = w.
Proof.
  revert n. induction w as [ | w IH ]; intros n; [ reflexivity | ].
  simpl. rewrite length_app, IH. simpl. lia.
Qed.

Lemma Forall_digits_of (w : nat) (n : Z) :
  Forall (fun d => 0 <= d < 10) (digits_of w n).
Proof.
  revert n. induction w as [ | w IH ]; intros n; [ constructor | ].
  simpl. apply Forall_app. split; [ apply IH | ].
  constructor; [ | constructor ]. apply Z.mod_pos_bound. lia.
Qed.


Lemma Forall_trim (P : Z -> Prop) (ds : list Z) :
  Forall P ds -> Forall P (trim ds).
Proof.
  induction 1 as [ | d r D _ IH ]; [ constructor | ].
  simpl. destruct (trim r) as [ | x r' ].
  - destruct (d =? 0); [ constructor | now constructor ].
  - now constructor.
Qed.


Lemma Forall_firstn_skipn (P : Z -> Prop) (n : nat) (l : list Z) :
  Forall P l -> Forall P (firstn n l) /\ Forall P (skipn n l).
Proof. intros F. apply Forall_app. now rewrite firstn_skipn. Qed.

Lemma Forall_repeat_zero (k : nat) :
  Forall (fun d => 0 <= d < 10) (repeat 0 k).
Proof. induction k as [ | k IH ]; simpl; constructor; [ lia | exact IH ]. Qed.

Lemma append_empty_r (s : string) : s ++ "" = s.
Proof. induction s as [ | c s IH ]; simpl; [ reflexivity | now rewrite IH ]. Qed.



Lemma near_integer_is_finite (val : Double.double) :
  near_integer val = true -> Double.is_finite val = true.
Proof.
  destruct val as [ s | s | | s m e ]; try reflexivity.
  - destruct s; vm_compute; discriminate.
  - vm_compute. discriminate.
Qed.

Lemma fixed_0 (val : Double.double) :
  Double.is_finite val = true ->
  fixed 0 val = sign (Double.signbit val) ++ dec (nearest_integer val).
Proof.
  intros F. unfold fixed, nearest_integer.
  destruct val as [ s | s | | s m e ]; try discriminate;
    destruct (Double.magnitude _) as [num den]; cbn [fst snd];
    unfold scaled; change (Z.of_nat 0) with 0; change (0 <=? 0) with true;
    change (10 ^ 0) with 1; cbv iota;
    rewrite Z.mul_1_r, Z.div_1_r, append_empty_r; reflexivity.
Qed.

Lemma general_10 (s : bool) (m : positive) (e : Z) :
  general 10 (S754_finite s m e) =
    sign s ++
    (if (-4 <=? shown_exponent (S754_finite s m e))
        && (shown_exponent (S754_finite s m e) <? 10)
     then decimal_layout (shown_digits (S754_finite s m e))
            (shown_exponent (S754_finite s m e))
     else scientific_layout (shown_digits (S754_finite s m e))
            (shown_exponent (S754_finite s m e))).
Proof.
  unfold general, shown_digits, shown_exponent.
  destruct (Double.magnitude _) as [num den]. cbn [fst snd].
  destruct (significand 10 num den) as [d X]. reflexivity.
Qed.

(** *** The decimal exponent and the digits of [%g] *)

Lemma exponent_up_spec (fuel : nat) (n d : Z) :
  0 < d <= n -> n < d * 10 ^ Z.of_nat fuel ->
  0 <= exponent_up fuel n d
  /\ d * 10 ^ exponent_up fuel n d <= n < d * 10 ^ (exponent_up fuel n d + 1).
Proof.
  revert d. induction fuel as [ | f IH ]; intros d D F.
  - simpl in F. lia.
  - cbn [exponent_up]. destruct (Z.ltb_spec n (d * 10)) as [L | L].
    + simpl. lia.
    + rewrite Nat2Z.inj_succ, Z.pow_succ_r in F by lia.
      destruct (IH (d * 10)) as (K & Lo & Hi); [ lia | lia | ].
      split; [ lia | ].
      rewrite Z.pow_add_r, Z.pow_1_r by lia.
      replace (1 + exponent_up f n (d * 10) + 1)
        with (Z.succ (exponent_up f n (d * 10) + 1)) by lia.
      rewrite Z.pow_succ_r by lia. lia.
Qed.

Lemma exponent_down_spec (fuel : nat) (n d : Z) :
  0 < n < d -> d <= n * 10 ^ Z.of_nat fuel ->
  1 <= exponent_down fuel n d
  /\ n * 10 ^ (exponent_down fuel n d - 1) < d <= n * 10 ^ exponent_down fuel n d.
Proof.
  revert n. induction fuel as [ | f IH ]; intros n D F.
  - simpl in F. lia.
  - cbn [exponent_down]. destruct (Z.leb_spec d (n * 10)) as [L | L].
    + simpl. lia.
    + rewrite Nat2Z.inj_succ, Z.pow_succ_r in F by lia.
      destruct (IH (n * 10)) as (K & Lo & Hi); [ lia | lia | ].
      split; [ lia | ].
      replace (1 + exponent_down f (n * 10) d - 1)
        with (Z.succ (exponent_down f (n * 10) d - 1)) by lia.
      replace (1 + exponent_down f (n * 10) d)
        with (Z.succ (exponent_down f (n * 10) d)) by lia.
      rewrite !Z.pow_succ_r by lia. lia.
Qed.

Lemma below_power_of_ten (n : Z) :
  0 < n -> n < 10 ^ Z.of_nat (S (Z.to_nat (Z.log2 n))).
Proof.
  intros N. rewrite Nat2Z.inj_succ, Z2Nat.id by apply Z.log2_nonneg.
  apply Z.lt_le_trans with (2 ^ Z.succ (Z.log2 n)).
  - apply Z.log2_spec. exact N.
  - apply Z.pow_le_mono_l. pose proof (Z.log2_nonneg n). lia.
Qed.

(** [exponent10 num den] is the decimal exponent of [num / den]. *)
Lemma exponent10_spec (num den : Z) :
  0 < num -> 0 < den ->
  (0 <= exponent10 num den
   /\ den * 10 ^ exponent10 num den <= num
      < den * 10 ^ (exponent10 num den + 1))
  \/ (exponent10 num den < 0
      /\ num * 10 ^ (- exponent10 num den - 1) < den
         <= num * 10 ^ (- exponent10 num den)).
Proof.
  intros N D. unfold exponent10. destruct (Z.leb_spec den num) as [L | L].
  - left. apply exponent_up_spec; [ lia | ].
    pose proof (below_power_of_ten num N). nia.
  - right.
    destruct (exponent_down_spec (S (Z.to_nat (Z.log2 den))) num den)
      as (K & Lo & Hi); [ lia | | ].
    + pose proof (below_power_of_ten den D). nia.
    + rewrite Z.opp_involutive. split; [ lia | ]. split; assumption.
Qed.

Lemma round_div_between (a b n d : Z) :
  0 < d -> a * d <= n < b * d -> a <= round_div n d <= b.
Proof.
  intros D [Lo Hi]. unfold round_div.
  assert (a <= n / d < b) as Q.
  { split; [ apply Z.div_le_lower_bound | apply Z.div_lt_upper_bound ]; lia. }
  destruct (2 * (n mod d) ?= d); [ destruct (Z.even (n / d)) | | ]; lia.
Qed.


Lemma scaled_between (P X num den : Z) :
  0 < P -> 0 < num -> 0 < den ->
  (0 <= X /\ den * 10 ^ X <= num < den * 10 ^ (X + 1))
  \/ (X < 0 /\ num * 10 ^ (- X - 1) < den <= num * 10 ^ (- X)) ->
  10 ^ (P - 1) <= scaled num den (P - 1 - X) <= 10 ^ P.
Proof.
  intros HP N D H. unfold scaled.
  assert (0 < 10 ^ (P - 1)) as P1 by (apply Z.pow_pos_nonneg; lia).
  assert (0 < 10 ^ P) as P0 by (apply Z.pow_pos_nonneg; lia).
  destruct (Z.leb_spec 0 (P - 1 - X)) as [K | K].
  - apply round_div_between; [ exact D | ].
    assert (0 < 10 ^ (P - 1 - X)) as K0 by (apply Z.pow_pos_nonneg; lia).
    destruct H as [(X0 & Lo & Hi) | (X0 & Lo & Hi)].
    + assert (10 ^ (P - 1) = 10 ^ X * 10 ^ (P - 1 - X)) as E1
        by (rewrite <- Z.pow_add_r by lia; f_equal; lia).
      assert (10 ^ P = 10 ^ (X + 1) * 10 ^ (P - 1 - X)) as E2
        by (rewrite <- Z.pow_add_r by lia; f_equal; lia).
      rewrite E1, E2. nia.
    + assert (10 ^ (P - 1 - X) = 10 ^ (P - 1) * 10 ^ (- X)) as E1
        by (rewrite <- Z.pow_add_r by lia; f_equal; lia).
      assert (10 ^ (P - 1 - X) = 10 ^ (- X - 1) * 10 ^ P) as E2
        by (rewrite <- Z.pow_add_r by lia; f_equal; lia).
      split; [ rewrite E1 | rewrite E2 ]; nia.
  - destruct H as [(X0 & Lo & Hi) | (X0 & _)]; [ | lia ].
    assert (0 < 10 ^ (- (P - 1 - X))) as K0 by (apply Z.pow_pos_nonneg; lia).
    assert (10 ^ X = 10 ^ (P - 1) * 10 ^ (- (P - 1 - X))) as E1
      by (rewrite <- Z.pow_add_r by lia; f_equal; lia).
    assert (10 ^ (X + 1) = 10 ^ P * 10 ^ (- (P - 1 - X))) as E2
      by (rewrite <- Z.pow_add_r by lia; f_equal; lia).
    apply round_div_between; [ nia | ].
    rewrite E1 in Lo. rewrite E2 in Hi. lia.
Qed.

(** The digits [significand] gives are [P] digits with a leading digit that
    is not 0. *)
Lemma significand_bounds (P : nat) (num den : Z) :
  (0 < P)%nat -> 0 < num -> 0 < den ->
  10 ^ (Z.of_nat P - 1) <= fst (significand P num den) < 10 ^ Z.of_nat P.
Proof.
  intros HP N D. unfold significand.
  pose proof (scaled_between (Z.of_nat P) (exponent10 num den) num den
                ltac:(lia) N D (exponent10_spec num den N D)) as B.
  destruct (Z.leb_spec (10 ^ Z.of_nat P)
              (scaled num den (Z.of_nat P - 1 - exponent10 num den)))
    as [C | C]; cbn [fst].
  - split; [ lia | ]. apply Z.pow_lt_mono_r; lia.
  - lia.
Qed.

Lemma hd_app_nonempty (l r : list Z) :
  l <> [] -> hd 0 (l ++ r) = hd 0 l.
Proof. destruct l; [ congruence | reflexivity ]. Qed.

Lemma hd_digits_of (w : nat) (n : Z) :
  10 ^ Z.of_nat w <= n < 10 ^ (Z.of_nat w + 1) ->
  hd 0 (digits_of (S w) n) <> 0.
Proof.
  revert n. induction w as [ | w IH ]; intros n B.
  - change (10 ^ Z.of_nat 0) with 1 in B. change (10 ^ (Z.of_nat 0 + 1)) with 10 in B.
    cbn [digits_of app hd]. rewrite Z.mod_small; lia.
  - change (digits_of (S (S w)) n)
      with (digits_of (S w) (n / 10) ++ [n mod 10])%list.
    rewrite hd_app_nonempty.
    + apply IH. rewrite Nat2Z.inj_succ in B.
      replace (Z.succ (Z.of_nat w)) with (Z.of_nat w + 1) in B by lia.
      rewrite (Z.pow_add_r 10 (Z.of_nat w + 1) 1) in B by lia.
      rewrite (Z.pow_add_r 10 (Z.of_nat w) 1) in B at 1 by lia.
      change (10 ^ 1) with 10 in B.
      split; [ apply Z.div_le_lower_bound | apply Z.div_lt_upper_bound ]; lia.
    + intros E. apply (f_equal (@List.length Z)) in E.
      rewrite length_digits_of in E. discriminate.
Qed.

Lemma hd_trim (ds : list Z) : hd 0 ds <> 0 -> hd 0 (trim ds) = hd 0 ds.
Proof.
  destruct ds as [ | d r ]; [ reflexivity | ]. cbn [hd trim]. intros D.
  destruct (trim r); [ | reflexivity ].
  destruct (Z.eqb_spec d 0); [ contradiction | reflexivity ].
Qed.

Lemma magnitude_positive (s : bool) (m : positive) (e : Z) :
  0 < fst (Double.magnitude (S754_finite s m e))
  /\ 0 < snd (Double.magnitude (S754_finite s m e)).
Proof.
  unfold Double.magnitude. destruct (Z.leb_spec 0 e); cbn [fst snd].
  - split; [ | lia ]. apply Z.mul_pos_pos; [ lia | ].
    apply Z.pow_pos_nonneg; lia.
  - split; [ lia | ]. apply Z.pow_pos_nonneg; lia.
Qed.

(** The digits shown start with a digit that is not 0. *)
Lemma shown_digits_leading (s : bool) (m : positive) (e : Z) :
  hd 0 (shown_digits (S754_finite s m e)) <> 0.
Proof.
  unfold shown_digits.
  destruct (magnitude_positive s m e) as [N D].
  pose proof (significand_bounds 10 _ _ ltac:(lia) N D) as B.
  change (Z.of_nat 10 - 1) with (Z.of_nat 9) in B.
  change (Z.of_nat 10) with (Z.of_nat 9 + 1) in B.
  pose proof (hd_digits_of 9 _ B) as H.
  rewrite hd_trim; exact H.
Qed.

(** *** The value of the digits shown *)











(** *** Reading back what was written *)


Lemma is_digit_cases (c : ascii) :
  is_digit c = true ->
  c = "0"%char \/ c = "1"%char \/ c = "2"%char \/ c = "3"%char
  \/ c = "4"%char \/ c = "5"%char \/ c = "6"%char \/ c = "7"%char
  \/ c = "8"%char \/ c = "9"%char.
Proof.
  destruct c as [[] [] [] [] [] [] [] []]; intros H;
    try (vm_compute in H; discriminate H);
    repeat (first [ left; reflexivity | right ]); reflexivity.
Qed.

Lemma digit_char_is_digit (d : Z) :
  0 <= d < 10 -> is_digit (digit_char d) = true.
Proof.
  intros D.
  assert (d = 0 \/ d = 1 \/ d = 2 \/ d = 3 \/ d = 4 \/ d = 5 \/ d = 6
          \/ d = 7 \/ d = 8 \/ d = 9) as E by lia.
  repeat (destruct E as [-> | E]; [ reflexivity | ]). subst d. reflexivity.
Qed.

Lemma leading_digit_app (s t : string) :
  leading_digit s = true -> leading_digit (s ++ t) = true.
Proof. destruct s; [ discriminate | intros H; exact H ]. Qed.

Lemma leading_digit_dec (n : Z) : leading_digit (dec n) = true.
Proof.
  unfold dec. destruct (Z.to_N n) as [ | p ]; [ reflexivity | ].
  cbn [N.to_uint]. pose proof (DecimalPos.Unsigned.to_uint_nonnil p) as H.
  destruct (Pos.to_uint p); [ congruence | .. ]; reflexivity.
Qed.

Lemma leading_digit_numeral (d : Z) (ds : list Z) :
  0 <= d < 10 -> leading_digit (numeral (d :: ds)) = true.
Proof. intros D. apply (digit_char_is_digit d D). Qed.

Lemma leading_digit_decimal_layout (ds : list Z) (X : Z) :
  Forall (fun d => 0 <= d < 10) ds ->
  leading_digit (decimal_layout ds X) = true.
Proof.
  intros F. unfold decimal_layout. destruct (Z.ltb_spec X 0) as [L | L].
  - reflexivity.
  - apply leading_digit_app.
    destruct (Z.to_nat (X + 1)) as [ | n ] eqn:E; [ lia | ].
    destruct F as [ | d ds D F ].
    + cbn [app List.length Nat.sub repeat firstn].
      apply leading_digit_numeral. lia.
    + cbn [app firstn]. apply leading_digit_numeral, D.
Qed.

Lemma leading_digit_scientific_layout (ds : list Z) (X : Z) :
  Forall (fun d => 0 <= d < 10) ds -> ds <> [] ->
  leading_digit (scientific_layout ds X) = true.
Proof.
  intros F N. unfold scientific_layout. apply leading_digit_app.
  destruct F as [ | d ds D F ]; [ congruence | ].
  cbn [firstn]. apply leading_digit_numeral, D.
Qed.

























(** The exponent shown is the exponent of the rounded number: 9999999999.5
    has the decimal exponent 9, rounds to 1.000000000e+10, and is shown with
    the one digit 1 and the exponent 10. *)
Example shown_digits_of :
  shown_digits (Double.of_ratio false 1 3) = [3; 3; 3; 3; 3; 3; 3; 3; 3; 3]
  /\ shown_exponent (Double.of_ratio false 1 3) = -1
  /\ shown_digits (Double.of_ratio false 5 4) = [1; 2; 5]
  /\ shown_exponent (Double.of_ratio false 5 4) = 0
  /\ exponent10 19999999999 2 = 9
  /\ shown_digits (Double.of_ratio false 19999999999 2) = [1]
  /\ shown_exponent (Double.of_ratio false 19999999999 2) = 10
  /\ ten_digits (shown_digits (Double.of_ratio false 19999999999 2)) = 10 ^ 9.
Proof. repeat (split; [ vm_compute; reflexivity | ]). vm_compute. reflexivity. Qed.




(** * Further properties of the calculator *)

(** ** Sequences of presses *)

Lemma run_app (ps qs : list Button) (st : State) :
  run (ps ++ qs) st =
    match run ps st with
    | Ok st' => run qs st'
    | Throw e => Throw e
    end.
Proof.
  revert st. induction ps as [ | p ps IH ]; intros st; [ reflexivity | ].
  cbn [app run]. destruct (handle_button_press p st); [ apply IH | reflexivity ].
Qed.

Lemma append_assoc (a b c : string) : (a ++ b) ++ c = a ++ (b ++ c).
Proof. induction a as [ | x a IH ]; [ reflexivity | ]. cbn. now rewrite IH. Qed.

Lemma append_is_not_zero (s : string) (c : ascii) :
  s <> "" -> s ++ String c "" <> "0".
Proof.
  destruct s as [ | a [ | b s ] ]; [ congruence | | ]; discriminate.
Qed.

Lemma press_digit (c : ascii) (st : State) :
  is_digit c = true ->
  handle_button_press (Digit c) st =
    Ok {| input_str :=
            if resetInput st then String c ""
            else if String.eqb (input_str st) "0" then String c ""
            else input_str st ++ String c "";
          storedValue := storedValue st; currentOp := currentOp st;
          resetInput := false |}.
Proof.
  intros C. unfold handle_button_press, Digit, make_button. simpl.
  rewrite (digit_is_not_point c C). simpl.
  destruct (resetInput st); [ reflexivity | ].
  rewrite andb_true_r. reflexivity.
Qed.

(** Digits typed on a buffer under entry: on ["0"] they give the number
    typed, on any other buffer they are appended. *)
Lemma typing_digits (cs : list ascii) (s : string) (v : Double.double)
    (o : ascii) :
  Forall (fun c => is_digit c = true) cs -> s <> "" ->
  run (map Digit cs)
    {| input_str := s; storedValue := v; currentOp := o; resetInput := false |}
  = Ok {| input_str :=
            if String.eqb s "0" then typed_number cs
            else s ++ string_of_list_ascii cs;
          storedValue := v; currentOp := o; resetInput := false |}.
Proof.
  intros D. revert s. induction D as [ | c cs C _ IH ]; intros s S.
  - cbn [map run string_of_list_ascii]. rewrite append_empty_r.
    destruct (String.eqb_spec s "0") as [-> | _]; reflexivity.
  - cbn [map run]. rewrite (press_digit c _ C).
    cbn [resetInput input_str storedValue currentOp].
    unfold typed_number. cbn [drop_zeros].
    destruct (String.eqb_spec s "0") as [-> | N].
    + rewrite IH by discriminate.
      destruct (Ascii.eqb_spec c "0") as [-> | N]; [ reflexivity | ].
      replace (String.eqb (String c "") "0") with false; [ reflexivity | ].
      symmetry. apply String.eqb_neq. congruence.
    + rewrite IH by (destruct s; [ congruence | discriminate ]).
      replace (String.eqb (s ++ String c "") "0") with false
        by (symmetry; apply String.eqb_neq, append_is_not_zero, S).
      rewrite append_assoc. reflexivity.
Qed.

(** X1.  After [Clear], typing digits shows the number typed: the digits
    without leading zeros, ["0"] when all of them are zeros. *)
Theorem digits_after_clear (c : ascii) (cs : list ascii) (st : State) :
  Forall (fun d => is_digit d = true) (c :: cs) ->
  run (Clear :: map Digit (c :: cs)) st =
    Ok {| input_str := typed_number (c :: cs); storedValue := Double.zero;
          currentOp := NUL; resetInput := false |}.
Proof.
  intros D. inversion D as [ | ? ? C D' ]; subst.
  change (Clear :: map Digit (c :: cs))
    with ([Clear; Digit c] ++ map Digit cs)%list.
  rewrite run_app.
  assert (E : run [Clear; Digit c] st =
              Ok {| input_str := String c ""; storedValue := Double.zero;
                    currentOp := NUL; resetInput := false |}).
  { cbn [run]. change (handle_button_press Clear st) with (Ok initial).
    cbv iota. rewrite (press_digit c _ C). reflexivity. }
  rewrite E, typing_digits by (assumption || discriminate).
  unfold typed_number. cbn [drop_zeros].
  destruct (Ascii.eqb_spec c "0") as [-> | N]; [ reflexivity | ].
  replace (String.eqb (String c "") "0") with false; [ reflexivity | ].
  symmetry. apply String.eqb_neq. congruence.
Qed.

Lemma digits_after_clear_witness :
  run (Clear :: map Digit ["0"; "0"; "7"; "0"]%char) initial =
    Ok {| input_str := "70";
          storedValue := Double.zero; currentOp := NUL; resetInput := false |}.
Proof.
  apply (digits_after_clear "0" ["0"; "7"; "0"]%char initial).
  repeat constructor.
Defined.

(** X2.  A second decimal point changes nothing: from any state, pressing
    the decimal point twice leaves what pressing it once leaves. *)
Theorem decimal_point_twice (st : State) :
  run [DecimalPoint; DecimalPoint] st = run [DecimalPoint] st.
Proof.
  assert (P : forall s, handle_button_press DecimalPoint s =
            Ok (if resetInput s then
                  {| input_str := "0."; storedValue := storedValue s;
                     currentOp := currentOp s; resetInput := false |}
                else if contains "." (input_str s) then s
                else {| input_str := input_str s ++ ".";
                        storedValue := storedValue s;
                        currentOp := currentOp s; resetInput := false |})).
  { intros s. unfold handle_button_press, DecimalPoint, make_button. simpl.
    destruct (resetInput s) eqn:R; [ reflexivity | ].
    destruct (contains "." (input_str s)); [ reflexivity | ].
    simpl. rewrite andb_false_r. reflexivity. }
  cbn [run]. rewrite (P st).
  destruct (resetInput st) eqn:R; [ reflexivity | ].
  destruct (contains "." (input_str st)) eqn:C.
  - rewrite (P st), R, C. reflexivity.
  - rewrite P. cbn [resetInput input_str].
    rewrite contains_app, C. reflexivity.
Qed.

Lemma calculate_result_clears (st : State) :
  currentOp (calculate_result st) = NUL.
Proof.
  unfold calculate_result.
  destruct (Ascii.eqb_spec (currentOp st) NUL) as [E | _]; [ exact E | ].
  destruct (Ascii.eqb (currentOp st) "+"); [ reflexivity | ].
  destruct (Ascii.eqb (currentOp st) "-"); [ reflexivity | ].
  destruct (Ascii.eqb (currentOp st) "*"); [ reflexivity | ].
  destruct (Ascii.eqb (currentOp st) "/"); [ | reflexivity ].
  destruct (Double.eqb (stod_or_zero (input_str st)) Double.zero); reflexivity.
Qed.

(** X3.  Equals evaluates once: a second equals right after the first
    changes nothing, whatever the state and whether or not the first one
    ended in ["Error"]. *)
Theorem equals_twice (st : State) :
  run [Equals; Equals] st = run [Equals] st.
Proof.
  assert (E : forall s, handle_button_press Equals s = Ok (calculate_result s))
    by reflexivity.
  cbn [run]. rewrite !E. f_equal.
  pose proof (calculate_result_clears st) as C.
  unfold calculate_result at 1. rewrite C. reflexivity.
Qed.

(** X4.  [Clear] forgets everything before it: what follows it runs as from
    the state the program starts in, provided the presses before it returned;
    an exception, once thrown, is the end of the run. *)
Theorem clear_starts_over (ps qs : list Button) (st : State) :
  (forall st', run ps st = Ok st' ->
     run (ps ++ Clear :: qs) st = run qs initial)
  /\ (forall e, run ps st = Throw e -> run (ps ++ qs) st = Throw e).
Proof.
  split.
  - intros st' H. rewrite run_app, H. reflexivity.
  - intros e H. rewrite run_app, H. reflexivity.
Qed.

Lemma clear_starts_over_witness :
  run ([Digit "5"; BinaryOp "/"; Digit "0"; Equals] ++ Clear :: [Digit "1"])
      initial
  = run [Digit "1"] initial.
Proof.
  apply (proj1 (clear_starts_over
                  [Digit "5"; BinaryOp "/"; Digit "0"; Equals] [Digit "1"]
                  initial)
           {| input_str := "Error"; storedValue := Double.zero;
              currentOp := NUL; resetInput := true |}).
  vm_compute. reflexivity.
Defined.

(** X5.  An operator followed at once by equals takes the number in the
    buffer as both operands: with nothing pending and a number [v] typed,
    [op =] shows [v op v]. *)
Theorem operator_then_equals (st : State) (c : ascii) :
  is_operator c = true ->
  resetInput st = false ->
  currentOp st = NUL ->
  (c = "/"%char ->
   Double.eqb (stod_or_zero (input_str st)) Double.zero = false) ->
  run [BinaryOp c; Equals] st =
    Ok {| input_str :=
            format_double
              (arithmetic c (stod_or_zero (input_str st))
                 (stod_or_zero (input_str st)));
          storedValue :=
            arithmetic c (stod_or_zero (input_str st))
              (stod_or_zero (input_str st));
          currentOp := NUL; resetInput := true |}.
Proof.
  intros O R N Z. cbn [run].
  rewrite (operator_without_pending_returns st (BinaryOp c) eq_refl (or_introl N)).
  rewrite R. change (value (BinaryOp c)) with c.
  change (handle_button_press Equals ?s) with (Ok (calculate_result s)).
  rewrite calculate_result_arithmetic; [ reflexivity | exact O | exact Z ].
Qed.

Lemma operator_then_equals_witness :
  run [BinaryOp "*"; Equals]
    {| input_str := "7"; storedValue := Double.zero; currentOp := NUL;
       resetInput := false |}
  = Ok {| input_str := "49"; storedValue := Double.of_Z 49;
          currentOp := NUL; resetInput := true |}.
Proof.
  apply (operator_then_equals
           {| input_str := "7"; storedValue := Double.zero; currentOp := NUL;
              resetInput := false |} "*").
  - reflexivity.
  - reflexivity.
  - reflexivity.
  - discriminate.
Defined.

(** ** [std::stod] finds a number in what the formatter writes *)

(** What [format_double] writes: an optional minus sign, then a text that
    starts with a digit, or [inf], or [nan]. *)
Lemma format_double_shape (val : Double.double) :
  exists body,
    format_double val = sign (Double.signbit val) ++ body
    /\ (leading_digit body = true \/ body = "inf" \/ body = "nan").
Proof.
  unfold format_double. destruct (near_integer val) eqn:N; unfold put.
  - rewrite (fixed_0 val (near_integer_is_finite val N)).
    eexists. split; [ reflexivity | ]. left. apply leading_digit_dec.
  - change (Nat.max 1 10) with 10%nat.
    destruct val as [ s | s | | s m e ].
    + exists "0". split; [ reflexivity | left; reflexivity ].
    + exists "inf". split; [ reflexivity | right; left; reflexivity ].
    + exists "nan". split; [ reflexivity | right; right; reflexivity ].
    + rewrite general_10. eexists. split; [ reflexivity | ]. left.
      assert (D : Forall (fun d => 0 <= d < 10) (shown_digits (S754_finite s m e)))
        by apply Forall_trim, Forall_digits_of.
      destruct ((-4 <=? _) && (_ <? 10)).
      * apply leading_digit_decimal_layout, D.
      * apply leading_digit_scientific_layout; [ exact D | ].
        pose proof (shown_digits_leading s m e) as H.
        intros E. rewrite E in H. apply H. reflexivity.
Qed.

Lemma digits_count (base : Z) (val : ascii -> option Z) (s : string)
    (acc cnt : Z) :
  cnt <= snd (fst (digits base val s acc cnt)).
Proof.
  revert acc cnt. induction s as [ | c s IH ]; intros acc cnt;
    cbn [digits]; [ cbn; lia | ].
  destruct (val c); [ | cbn; lia ].
  specialize (IH (acc * base + z) (cnt + 1)). lia.
Qed.

Lemma dec_literal_leading_digit (s : string) :
  leading_digit s = true -> dec_literal s <> None.
Proof.
  destruct s as [ | c r ]; [ discriminate | ]. cbn [leading_digit].
  unfold is_digit. destruct (digit_val c) as [ d | ] eqn:V; [ | discriminate ].
  intros _. unfold dec_literal, mantissa. cbn [digits]. rewrite V.
  pose proof (digits_count 10 digit_val r (0 * 10 + d) (0 + 1)) as C1.
  destruct (digits 10 digit_val r (0 * 10 + d) (0 + 1)) as [[i n1] r1].
  cbn [fst snd] in C1.
  assert (exists m n2 r2, 0 <= n2 /\
            match r1 with
            | String "." r0 => digits 10 digit_val r0 i 0
            | _ => (i, 0, r1)
            end = (m, n2, r2)) as (m & n2 & r2 & C2 & E).
  { destruct r1 as [ | a r0 ].
    - exists i, 0, "". split; [ lia | reflexivity ].
    - destruct (Ascii.eqb_spec a ".") as [-> | N].
      + pose proof (digits_count 10 digit_val r0 i 0) as C.
        destruct (digits 10 digit_val r0 i 0) as [[m n2] r2].
        exists m, n2, r2. split; [ exact C | reflexivity ].
      + exists i, 0, (String a r0). split; [ lia | ].
        destruct a as [[] [] [] [] [] [] [] []]; try reflexivity.
        congruence. }
  rewrite E. destruct (Z.eqb_spec (n1 + n2) 0); [ lia | discriminate ].
Qed.

Lemma convert_is_not_invalid (neg : bool) (m base k : Z) :
  convert neg m base k <> Throw invalid_argument.
Proof.
  unfold convert. destruct (m =? 0); [ discriminate | ].
  destruct (if 0 <=? k then _ else _) as [num den].
  destruct (Double.magnitude _) as [xn xd].
  destruct (_ || _); discriminate.
Qed.

Lemma stod_number (neg : bool) (s : string) :
  leading_digit s = true ->
  match hex_literal s with
  | Some (m, k) => convert neg m 2 k
  | None =>
      match dec_literal s with
      | Some (m, k) => convert neg m 10 k
      | None => Throw invalid_argument
      end
  end <> Throw invalid_argument.
Proof.
  intros L. destruct (hex_literal s) as [ [m k] | ].
  - apply convert_is_not_invalid.
  - pose proof (dec_literal_leading_digit s L) as D.
    destruct (dec_literal s) as [ [m k] | ]; [ | congruence ].
    apply convert_is_not_invalid.
Qed.

Lemma stod_leading_digit (s : string) :
  leading_digit s = true ->
  stod s <> Throw invalid_argument /\ stod ("-" ++ s) <> Throw invalid_argument.
Proof.
  intros L. pose proof (stod_number false s L) as P.
  pose proof (stod_number true s L) as Q.
  destruct s as [ | c r ]; [ discriminate | ].
  destruct (is_digit_cases c L) as
    [-> | [-> | [-> | [-> | [-> | [-> | [-> | [-> | [-> | ->]]]]]]]]];
    split; assumption.
Qed.

(** [std::stod] finds a number in everything [format_double] writes. *)
Lemma stod_format_double (val : Double.double) :
  stod (format_double val) <> Throw invalid_argument.
Proof.
  destruct (format_double_shape val) as (body & -> & [L | [-> | ->]]).
  - destruct (Double.signbit val); apply stod_leading_digit, L.
  - destruct (Double.signbit val); discriminate.
  - destruct (Double.signbit val); discriminate.
Qed.

(** ** When a press throws *)

(** X6.  With an operand typed and one of [+ - * /] pending, an operator
    press throws [std::invalid_argument] exactly when the pending operation
    is a division by zero: then the buffer it parses is ["Error"], and in
    every other case the buffer is a formatted number, in which [std::stod]
    finds a number. *)
Theorem operator_press_invalid_argument (st : State) (btn : Button) :
  type btn = "operator" ->
  resetInput st = false ->
  is_operator (currentOp st) = true ->
  handle_button_press btn st = Throw invalid_argument
  <-> currentOp st = "/"%char
      /\ Double.eqb (stod_or_zero (input_str st)) Double.zero = true.
Proof.
  intros T R O.
  assert (H : handle_button_press btn st =
              match stod (input_str (calculate_result st)) with
              | Ok v =>
                  Ok {| input_str := input_str (calculate_result st);
                        storedValue := v; currentOp := value btn;
                        resetInput := true |}
              | Throw e => Throw e
              end).
  { unfold handle_button_press. rewrite T. simpl. rewrite R. simpl.
    rewrite (operator_is_not_NUL _ O). reflexivity. }
  rewrite H. clear H.
  destruct (Ascii.eqb_spec (currentOp st) "/") as [D | D];
    [ destruct (Double.eqb (stod_or_zero (input_str st)) Double.zero) eqn:Z | ].
  - split; [ intros _; split; [ exact D | reflexivity ] | intros _ ].
    unfold calculate_result. rewrite D. simpl. rewrite Z. reflexivity.
  - rewrite calculate_result_arithmetic by (assumption || intros _; exact Z).
    cbn [input_str].
    pose proof (stod_format_double
                  (arithmetic (currentOp st) (storedValue st)
                     (stod_or_zero (input_str st)))) as P.
    split; [ | intros [_ F]; discriminate F ].
    destruct (stod _) as [ v | e ]; [ discriminate | ].
    intros E. injection E as ->. exfalso. apply P. reflexivity.
  - rewrite calculate_result_arithmetic by (assumption || intros E; contradiction).
    cbn [input_str].
    pose proof (stod_format_double
                  (arithmetic (currentOp st) (storedValue st)
                     (stod_or_zero (input_str st)))) as P.
    split; [ | intros [E _]; contradiction ].
    destruct (stod _) as [ v | e ]; [ discriminate | ].
    intros E. injection E as ->. exfalso. apply P. reflexivity.
Qed.

Lemma operator_press_invalid_argument_witness :
  handle_button_press (BinaryOp "-")
    {| input_str := "0.0"; storedValue := Double.of_Z 7; currentOp := "/";
       resetInput := false |} = Throw invalid_argument.
Proof.
  apply (operator_press_invalid_argument
           {| input_str := "0.0"; storedValue := Double.of_Z 7;
              currentOp := "/"; resetInput := false |} (BinaryOp "-"));
    try reflexivity.
  split; vm_compute; reflexivity.
Defined.

(** X7.  Only the chained operator path throws: a press that ends in an
    exception is an operator press made while an operand is being typed and
    an operator is pending.  Digit, decimal point, clear and equals presses
    always return. *)
Theorem only_chained_operator_throws (st : State) (btn : Button)
    (e : exception) :
  handle_button_press btn st = Throw e ->
  type btn = "operator" /\ resetInput st = false /\ currentOp st <> NUL.
Proof.
  unfold handle_button_press.
  destruct (String.eqb_spec (type btn) "number") as [ _ | _ ].
  - destruct (resetInput st); [ discriminate | ].
    destruct (_ && _); discriminate.
  - destruct (String.eqb_spec (type btn) "operator") as [ T | _ ].
    + destruct (resetInput st); [ discriminate | ]. cbn [negb].
      destruct (Ascii.eqb_spec (currentOp st) NUL) as [ N | N ];
        [ discriminate | ].
      intros _. repeat split; assumption.
    + destruct (String.eqb (type btn) "clear"); [ discriminate | ].
      destruct (String.eqb (type btn) "equals"); discriminate.
Qed.

Lemma only_chained_operator_throws_witness :
  type (BinaryOp "+") = "operator"
  /\ resetInput {| input_str := "0"; storedValue := Double.of_Z 5;
                   currentOp := "/"; resetInput := false |} = false
  /\ currentOp {| input_str := "0"; storedValue := Double.of_Z 5;
                  currentOp := "/"; resetInput := false |} <> NUL.
Proof.
  apply (only_chained_operator_throws _ (BinaryOp "+") invalid_argument).
  vm_compute. reflexivity.
Defined.

(** ** Whole numbers *)

Lemma sub_self (s : bool) (m : positive) (e : Z) :
  Double.sub (S754_finite s m e) (S754_finite s m e) = S754_zero false.
Proof.
  unfold Double.sub, SFsub. rewrite Z.sub_diag. reflexivity.
Qed.

(** X8.  A double whose binary exponent is not negative (every double from
    2^53 on is one) is shown as the whole number it is, with all its digits
    and never an exponent. *)
Theorem whole_number_in_full (s : bool) (m : positive) (e : Z) :
  0 <= e ->
  format_double (S754_finite s m e) = sign s ++ dec (Zpos m * 2 ^ e)
  /\ contains "e" (format_double (S754_finite s m e)) = false
  /\ contains "." (format_double (S754_finite s m e)) = false.
Proof.
  intros E.
  assert (N : near_integer (S754_finite s m e) = true).
  { unfold near_integer, Double.round.
    destruct (Z.leb_spec 0 e) as [ _ | L ]; [ | lia ].
    rewrite sub_self. reflexivity. }
  assert (F : format_double (S754_finite s m e) = sign s ++ dec (Zpos m * 2 ^ e)).
  { unfold format_double. rewrite N. unfold put. rewrite fixed_0 by reflexivity.
    cbn [Double.signbit]. unfold nearest_integer, Double.magnitude.
    destruct (Z.leb_spec 0 e) as [ _ | L ]; [ | lia ]. cbn [fst snd].
    unfold round_div. rewrite Z.div_1_r, Z.mod_1_r. reflexivity. }
  rewrite F, !contains_app, !contains_sign, !contains_dec by reflexivity.
  repeat split.
Qed.

Lemma whole_number_in_full_witness :
  format_double (S754_finite false 4503599627370496 48) =
    sign false ++ dec (4503599627370496 * 2 ^ 48)
  /\ contains "e" (format_double (S754_finite false 4503599627370496 48)) = false
  /\ contains "." (format_double (S754_finite false 4503599627370496 48)) = false.
Proof.
  apply (whole_number_in_full false 4503599627370496 48). lia.
Defined.

(** ** An invariant of the states the window's buttons lead to *)

Lemma occurrences_app (c : ascii) (s t : string) :
  occurrences c (s ++ t) = (occurrences c s + occurrences c t)%nat.
Proof.
  induction s as [ | a s IH ]; [ reflexivity | ].
  cbn [append occurrences]. rewrite IH. lia.
Qed.

Lemma occurrences_absent (c : ascii) (s : string) :
  contains c s = false -> occurrences c s = 0%nat.
Proof.
  induction s as [ | a s IH ]; [ reflexivity | ]. cbn [contains occurrences].
  intros H. apply orb_false_iff in H. destruct H as [A B].
  rewrite A, (IH B). reflexivity.
Qed.

Lemma occurrences_fraction (ds : list Z) :
  Forall (fun d => 0 <= d < 10) ds ->
  (occurrences "." (fraction ds) <= 1)%nat.
Proof.
  intros F. unfold fraction. destruct ds as [ | d r ]; [ cbn; lia | ].
  rewrite occurrences_app, (occurrences_absent "." (numeral _)).
  - cbn. lia.
  - apply contains_numeral; [ reflexivity | exact F ].
Qed.

Lemma occurrences_decimal_layout (ds : list Z) (X : Z) :
  Forall (fun d => 0 <= d < 10) ds ->
  (occurrences "." (decimal_layout ds X) <= 1)%nat.
Proof.
  intros F. unfold decimal_layout. destruct (X <? 0).
  - rewrite occurrences_app. change (occurrences "." "0") with 0%nat.
    apply occurrences_fraction, Forall_app.
    split; [ apply Forall_repeat_zero | exact F ].
  - rewrite occurrences_app, (occurrences_absent "." (numeral _)).
    + apply occurrences_fraction, Forall_firstn_skipn, F.
    + apply contains_numeral; [ reflexivity | ].
      apply Forall_firstn_skipn, Forall_app.
      split; [ exact F | apply Forall_repeat_zero ].
Qed.

Lemma occurrences_scientific_layout (ds : list Z) (X : Z) :
  Forall (fun d => 0 <= d < 10) ds ->
  (occurrences "." (scientific_layout ds X) <= 1)%nat.
Proof.
  intros F. unfold scientific_layout.
  rewrite occurrences_app, (occurrences_absent "." (numeral _)).
  - rewrite occurrences_app.
    rewrite (occurrences_absent "." ("e" ++ _)).
    + pose proof (occurrences_fraction (skipn 1 ds)
                    (proj2 (Forall_firstn_skipn _ 1 ds F))). lia.
    + rewrite !contains_app, contains_dec by reflexivity.
      destruct (X <? 0); destruct (Z.abs X <? 10); reflexivity.
  - apply contains_numeral; [ reflexivity | ].
    apply Forall_firstn_skipn, F.
Qed.

(** A formatted number is not empty and has at most one decimal point. *)
Lemma format_double_text (val : Double.double) :
  format_double val <> ""
  /\ (occurrences "." (format_double val) <= 1)%nat.
Proof.
  split.
  - destruct (format_double_shape val) as (body & -> & H).
    destruct (Double.signbit val); [ discriminate | ]. cbn [sign append].
    destruct H as [L | [-> | ->]]; try discriminate.
    destruct body; discriminate.
  - unfold format_double. destruct (near_integer val) eqn:N; unfold put.
    + rewrite (fixed_0 val (near_integer_is_finite val N)).
      rewrite occurrences_absent; [ lia | ].
      rewrite contains_app, contains_sign, contains_dec; reflexivity.
    + change (Nat.max 1 10) with 10%nat.
      destruct val as [ s | s | | s m e ]; try (destruct s; cbn; lia).
      * cbn. lia.
      * rewrite general_10, occurrences_app.
        rewrite (occurrences_absent "." (sign s))
          by (apply contains_sign; reflexivity).
        assert (D : Forall (fun d => 0 <= d < 10)
                      (shown_digits (S754_finite s m e)))
          by apply Forall_trim, Forall_digits_of.
        destruct ((-4 <=? _) && (_ <? 10)).
        -- apply occurrences_decimal_layout, D.
        -- apply occurrences_scientific_layout, D.
Qed.

Lemma calculate_result_cases (st : State) :
  calculate_result st = st
  \/ (exists r,
        calculate_result st =
          {| input_str := format_double r; storedValue := r;
             currentOp := NUL; resetInput := true |})
  \/ calculate_result st =
       {| input_str := "Error"; storedValue := Double.zero;
          currentOp := NUL; resetInput := true |}.
Proof.
  unfold calculate_result.
  destruct (Ascii.eqb (currentOp st) NUL); [ left; reflexivity | right ].
  destruct (Ascii.eqb (currentOp st) "+"); [ left; eexists; reflexivity | ].
  destruct (Ascii.eqb (currentOp st) "-"); [ left; eexists; reflexivity | ].
  destruct (Ascii.eqb (currentOp st) "*"); [ left; eexists; reflexivity | ].
  destruct (Ascii.eqb (currentOp st) "/"); [ | left; eexists; reflexivity ].
  destruct (Double.eqb (stod_or_zero (input_str st)) Double.zero);
    [ right; reflexivity | left; eexists; reflexivity ].
Qed.

Lemma well_formed_calculate_result (st : State) :
  well_formed st -> well_formed (calculate_result st).
Proof.
  intros W.
  destruct (calculate_result_cases st) as [-> | [(r & ->) | ->]].
  - exact W.
  - destruct (format_double_text r) as [N P].
    split; [ exact N | ]. split; [ exact P | left; reflexivity ].
  - split; [ discriminate | ]. split; [ cbn; lia | left; reflexivity ].
Qed.

Lemma press_point (st : State) :
  handle_button_press DecimalPoint st =
    Ok (if resetInput st then
          {| input_str := "0."; storedValue := storedValue st;
             currentOp := currentOp st; resetInput := false |}
        else if contains "." (input_str st) then st
        else {| input_str := input_str st ++ ".";
                storedValue := storedValue st;
                currentOp := currentOp st; resetInput := false |}).
Proof.
  unfold handle_button_press, DecimalPoint, make_button. simpl.
  destruct (resetInput st) eqn:R; [ reflexivity | ].
  destruct (contains "." (input_str st)); [ reflexivity | ].
  simpl. rewrite andb_false_r. reflexivity.
Qed.

Lemma buttons_cases (btn : Button) :
  In btn buttons ->
  (exists c, is_digit c = true /\ btn = Digit c)
  \/ btn = DecimalPoint
  \/ (exists c, is_operator c = true /\ btn = BinaryOp c)
  \/ btn = Clear
  \/ btn = Equals.
Proof.
  intros H. cbv [buttons labels map] in H. cbn [fst snd] in H.
  repeat (destruct H as [<- | H];
          [ first
              [ left; eexists; split; [ | reflexivity ]; reflexivity
              | right; left; reflexivity
              | right; right; left; eexists; split; [ | reflexivity ];
                reflexivity
              | right; right; right; left; reflexivity
              | right; right; right; right; reflexivity ] | ]).
  contradiction.
Qed.

Lemma append_not_empty (s t : string) : s <> "" -> s ++ t <> "".
Proof. destruct s; [ congruence | discriminate ]. Qed.

Lemma well_formed_press (btn : Button) (st st' : State) :
  In btn buttons -> well_formed st ->
  handle_button_press btn st = Ok st' -> well_formed st'.
Proof.
  intros B (N & P & O) H.
  destruct (buttons_cases btn B)
    as [(c & C & ->) | [-> | [(c & C & ->) | [-> | ->]]]].
  - rewrite (press_digit c st C) in H. injection H as <-.
    assert (Z : occurrences "." (String c "") = 0%nat).
    { cbn [occurrences].
      destruct (Ascii.eqb_spec c ".") as [-> | _ ]; [ discriminate C | ].
      reflexivity. }
    split; [ | split; [ | exact O ] ]; cbn [input_str].
    + destruct (resetInput st); [ discriminate | ].
      destruct (String.eqb (input_str st) "0"); [ discriminate | ].
      apply append_not_empty, N.
    + destruct (resetInput st); [ rewrite Z; lia | ].
      destruct (String.eqb (input_str st) "0"); [ rewrite Z; lia | ].
      rewrite occurrences_app, Z. lia.
  - rewrite press_point in H. injection H as <-.
    destruct (resetInput st).
    + split; [ discriminate | ]. split; [ cbn; lia | exact O ].
    + destruct (contains "." (input_str st)) eqn:C.
      * split; [ exact N | split; [ exact P | exact O ] ].
      * split; [ apply append_not_empty, N | ].
        split; [ | exact O ]. cbn [input_str].
        rewrite occurrences_app, (occurrences_absent _ _ C). cbn. lia.
  - pose proof (well_formed_calculate_result st (conj N (conj P O)))
      as (N' & P' & _).
    unfold handle_button_press in H.
    change (type (BinaryOp c)) with "operator" in H.
    change (value (BinaryOp c)) with c in H.
    cbn [String.eqb Ascii.eqb Bool.eqb] in H.
    destruct (resetInput st); cbn [negb] in H.
    + injection H as <-. split; [ exact N | ].
      split; [ exact P | right; exact C ].
    + destruct (Ascii.eqb (currentOp st) NUL); cbn [negb] in H.
      * injection H as <-. split; [ exact N | ].
        split; [ exact P | right; exact C ].
      * destruct (stod (input_str (calculate_result st))); [ | discriminate ].
        injection H as <-. split; [ exact N' | ].
        split; [ exact P' | right; exact C ].
  - injection H as <-. split; [ discriminate | ].
    split; [ cbn; lia | left; reflexivity ].
  - injection H as <-.
    apply well_formed_calculate_result. split; [ exact N | ].
    split; [ exact P | exact O ].
Qed.

(** X9.  Whatever buttons of the window are pressed from the start, as long
    as no press throws: the buffer is never empty, it never holds more than
    one decimal point, and the pending operator is none or one of
    [+ - * /] (so the [switch] of [calculate_result] never misses). *)
Theorem reachable_states_well_formed (presses : list Button) (st : State) :
  Forall (fun btn => In btn buttons) presses ->
  run presses initial = Ok st ->
  well_formed st.
Proof.
  assert (G : forall s, well_formed s ->
              Forall (fun btn => In btn buttons) presses ->
              run presses s = Ok st -> well_formed st).
  { induction presses as [ | p ps IH ]; intros s W F H.
    - injection H as <-. exact W.
    - inversion F as [ | ? ? B F' ]; subst. cbn [run] in H.
      destruct (handle_button_press p s) as [ s' | e ] eqn:E;
        [ | discriminate ].
      apply (IH s'); [ | exact F' | exact H ].
      apply (well_formed_press p s s' B W E). }
  apply G. split; [ discriminate | ].
  split; [ cbn; lia | left; reflexivity ].
Qed.

Lemma reachable_states_well_formed_witness :
  well_formed
    {| input_str := "0.3333333333";
       storedValue := arithmetic "/" (Double.of_Z 1) (Double.of_Z 3);
       currentOp := NUL; resetInput := true |}.
Proof.
  apply (reachable_states_well_formed
           [Digit "1"; BinaryOp "/"; Digit "3"; Equals]).
  - repeat (apply Forall_cons; [ vm_compute; tauto | ]). apply Forall_nil.
  - vm_compute. reflexivity.
Defined.

(** ** The window: where the buttons are *)

Lemma apart_sound (r1 r2 : SDL.SDL_Rect) (mx my : Z) :
  apart r1 r2 = true ->
  is_hovered r1 mx my = true -> is_hovered r2 mx my = false.
Proof.
  unfold apart, is_hovered. intros A H.
  apply andb_true_iff in H. destruct H as [H H4].
  apply andb_true_iff in H. destruct H as [H H3].
  apply andb_true_iff in H. destruct H as [H1 H2].
  apply Z.leb_le in H1, H2, H3, H4.
  apply orb_true_iff in A. destruct A as [A | A4].
  - apply orb_true_iff in A. destruct A as [A | A3].
    + apply orb_true_iff in A. destruct A as [A1 | A2].
      * apply Z.ltb_lt in A1.
        destruct (Z.leb_spec (SDL.x r2) mx); [ lia | reflexivity ].
      * apply Z.ltb_lt in A2.
        destruct (Z.leb_spec mx (SDL.x r2 + SDL.w r2));
          [ lia | apply andb_false_iff; left; apply andb_false_iff; left;
                  apply andb_false_r ].
    + apply Z.ltb_lt in A3.
      destruct (Z.leb_spec (SDL.y r2) my);
        [ lia | apply andb_false_iff; left; apply andb_false_r ].
  - apply Z.ltb_lt in A4.
    destruct (Z.leb_spec my (SDL.y r2 + SDL.h r2)); [ lia | apply andb_false_r ].
Qed.

Lemma mouse_button_down_miss (bs : list (SDL.SDL_Rect * Button))
    (mx my : Z) (st : State) :
  forallb (fun rb => negb (is_hovered (fst rb) mx my)) bs = true ->
  mouse_button_down bs mx my st = Ok st.
Proof.
  induction bs as [ | rb bs IH ]; [ reflexivity | ]. cbn [forallb].
  intros H. apply andb_true_iff in H. destruct H as [H1 H2].
  cbn [mouse_button_down]. apply negb_true_iff in H1. rewrite H1.
  apply IH, H2.
Qed.

Lemma mouse_button_down_hit (bs : list (SDL.SDL_Rect * Button))
    (r : SDL.SDL_Rect) (btn : Button) (mx my : Z) (st : State) :
  pairwise_apart (map fst bs) = true ->
  In (r, btn) bs ->
  is_hovered r mx my = true ->
  mouse_button_down bs mx my st = handle_button_press btn st.
Proof.
  induction bs as [ | rb bs IH ]; intros A I H; [ contradiction | ].
  cbn [map pairwise_apart] in A. apply andb_true_iff in A.
  destruct A as [A1 A2]. cbn [mouse_button_down].
  destruct I as [-> | I].
  - cbn [fst snd]. rewrite H. reflexivity.
  - assert (is_hovered (fst rb) mx my = false) as ->.
    { destruct (is_hovered (fst rb) mx my) eqn:F; [ | reflexivity ].
      rewrite forallb_forall in A1.
      assert (In r (map fst bs)) as J by (apply (in_map fst _ _ I)).
      rewrite (apart_sound (fst rb) r mx my (A1 r J) F) in H. discriminate. }
    apply IH; assumption.
Qed.

Lemma at_most_one_hovered (rs : list SDL.SDL_Rect) (mx my : Z) :
  pairwise_apart rs = true ->
  (List.length (filter (fun r => is_hovered r mx my) rs) <= 1)%nat.
Proof.
  induction rs as [ | r rs IH ]; intros A; [ cbn; lia | ].
  cbn [pairwise_apart] in A. apply andb_true_iff in A. destruct A as [A1 A2].
  cbn [filter]. destruct (is_hovered r mx my) eqn:H; [ | apply IH, A2 ].
  replace (filter (fun r0 => is_hovered r0 mx my) rs) with (@nil SDL.SDL_Rect);
    [ cbn; lia | ].
  symmetry. rewrite forallb_forall in A1. clear IH A2.
  induction rs as [ | r' rs IH ]; [ reflexivity | ]. cbn [filter].
  rewrite (apart_sound r r' mx my (A1 r' (or_introl eq_refl)) H).
  apply IH. intros x I. apply A1. right. exact I.
Qed.

(** X10.  [layout_buttons] places the seventeen buttons of the table, in
    its order, so that no point of the window is in two of them (the
    [break] of the click loop skips nothing), all of them lie inside the
    window, and all of them lie clear of the display. *)
Theorem layout_is_sound (mx my : Z) :
  map snd layout_buttons = buttons
  /\ (List.length
        (filter (fun r => is_hovered r mx my) (map fst layout_buttons)) <= 1)%nat
  /\ forallb in_window (map fst layout_buttons) = true
  /\ forallb (apart display_rect) (map fst layout_buttons) = true.
Proof.
  split; [ vm_compute; reflexivity | ].
  split; [ apply at_most_one_hovered; vm_compute; reflexivity | ].
  split; vm_compute; reflexivity.
Qed.

(** X11.  A click presses the button whose rectangle holds the pointer, and
    that one only; a click on the display changes nothing. *)
Theorem click_presses_the_button_under_the_pointer
    (r : SDL.SDL_Rect) (btn : Button) (mx my : Z) (st : State) :
  (In (r, btn) layout_buttons -> is_hovered r mx my = true ->
   mouse_button_down layout_buttons mx my st = handle_button_press btn st)
  /\ (is_hovered display_rect mx my = true ->
      mouse_button_down layout_buttons mx my st = Ok st).
Proof.
  split.
  - apply mouse_button_down_hit. vm_compute. reflexivity.
  - intros H. apply mouse_button_down_miss. apply forallb_forall.
    intros rb I. apply negb_true_iff.
    apply (apart_sound display_rect (fst rb) mx my); [ | exact H ].
    assert (A : forallb (apart display_rect) (map fst layout_buttons) = true)
      by (vm_compute; reflexivity).
    rewrite forallb_forall in A. apply A, in_map, I.
Qed.

Lemma click_presses_the_button_under_the_pointer_witness :
  mouse_button_down layout_buttons 350 150 initial =
    handle_button_press (BinaryOp "/") initial.
Proof.
  apply (proj1 (click_presses_the_button_under_the_pointer
                  {| SDL.x := 302; SDL.y := 108; SDL.w := 90; SDL.h := 70 |}
                  (BinaryOp "/") 350 150 initial)).
  - vm_compute. tauto.
  - vm_compute. reflexivity.
Defined.

(** * Properties of the add-on header *)

(** ** Backspace *)

Lemma pop_back_append (s : string) (c : ascii) :
  pop_back (s ++ String c "") = s.
Proof.
  induction s as [ | a s IH ]; [ reflexivity | ].
  cbn [append]. destruct s as [ | b s ].
  - reflexivity.
  - change (pop_back (String a (String b s ++ String c "")))
      with (String a (pop_back (String b s ++ String c ""))).
    now rewrite IH.
Qed.

Lemma length_append (s t : string) :
  String.length (s ++ t) = (String.length s + String.length t)%nat.
Proof. induction s as [ | a s IH ]; [ reflexivity | ]. cbn. now rewrite IH. Qed.

Lemma backspace_append (s : string) (c : ascii) :
  s <> "" -> backspaceInput (s ++ String c "") = s.
Proof.
  intros N. unfold backspaceInput.
  destruct (Nat.ltb_spec 1 (String.length (s ++ String c ""))) as [ _ | L ].
  - apply pop_back_append.
  - rewrite length_append in L. destruct s; [ congruence | ].
    cbn in L. lia.
Qed.

(** X12.  Backspace undoes a digit: while a number is being typed, a digit
    press followed by backspace on the buffer gives the buffer back, also
    when the digit had replaced a ["0"]. *)
Theorem backspace_undoes_digit (st st' : State) (c : ascii) :
  is_digit c = true ->
  resetInput st = false ->
  input_str st <> "" ->
  handle_button_press (Digit c) st = Ok st' ->
  backspaceInput (input_str st') = input_str st.
Proof.
  intros C R N H. rewrite (press_digit c st C), R in H. injection H as <-.
  cbn [input_str].
  destruct (String.eqb_spec (input_str st) "0") as [ -> | _ ].
  - reflexivity.
  - apply backspace_append, N.
Qed.

Lemma backspace_undoes_digit_witness :
  backspaceInput "12.57" = "12.5".
Proof.
  apply (backspace_undoes_digit
           {| input_str := "12.5"; storedValue := Double.zero;
              currentOp := NUL; resetInput := false |}
           {| input_str := "12.57"; storedValue := Double.zero;
              currentOp := NUL; resetInput := false |} "7");
    try reflexivity.
  discriminate.
Defined.

Lemma backspace_zero (n : nat) : Nat.iter n backspaceInput "0" = "0".
Proof.
  induction n as [ | n IH ]; [ reflexivity | ].
  rewrite Nat.iter_succ, IH. reflexivity.
Qed.

(** X13.  Backspace never leaves an empty buffer, and as many backspaces as
    the buffer has characters (at least one) always end at ["0"], where
    further ones stay. *)
Theorem backspace_ends_at_zero (display : string) (n : nat) :
  (1 <= n)%nat -> (String.length display <= n)%nat ->
  backspaceInput display <> ""
  /\ Nat.iter n backspaceInput display = "0".
Proof.
  intros P L. split.
  - unfold backspaceInput.
    destruct (Nat.ltb_spec 1 (String.length display)) as [ G | _ ];
      [ | discriminate ].
    destruct display as [ | a [ | b s ] ]; cbn in G; try lia. discriminate.
  - revert display P L. induction n as [ | n IH ]; intros s P L; [ lia | ].
    rewrite Nat.iter_succ_r. unfold backspaceInput at 2.
    destruct (Nat.ltb_spec 1 (String.length s)) as [ G | G ].
    + destruct s as [ | a s ]; cbn [String.length] in G, L; [ lia | ].
      apply IH; [ lia | ].
      rewrite length_pop_back. lia.
    + apply backspace_zero.
Qed.

Lemma backspace_ends_at_zero_witness :
  backspaceInput "Error" <> ""
  /\ Nat.iter 5 backspaceInput "Error" = "0".
Proof.
  apply (backspace_ends_at_zero "Error" 5); cbn; lia.
Defined.

(** ** Valid numbers *)

(** X14.  [isValidNumber] accepts exactly the texts other than
    ["Infinity"] in which [std::stod] finds a number in range; its tests for
    the empty text and for ["Error"] reject nothing that [std::stod] would
    accept.  So both error texts are rejected, and [inf], [nan] and
    [infinity] in lower case are accepted. *)
Theorem isValidNumber_spec (str : string) :
  (isValidNumber str = true <->
   str <> "Infinity" /\ exists v, stod str = Ok v)
  /\ isValidNumber "Error" = false
  /\ isValidNumber "Error: Div by 0" = false
  /\ isValidNumber "infinity" = true
  /\ isValidNumber "nan" = true.
Proof.
  split; [ | repeat split ]. unfold isValidNumber.
  destruct (String.eqb_spec str "") as [ -> | _ ]; cbn [orb].
  - split; [ discriminate | intros [_ [v H]]; discriminate H ].
  - destruct (String.eqb_spec str "Error") as [ -> | _ ]; cbn [orb].
    + split; [ discriminate | intros [_ [v H]]; discriminate H ].
    + destruct (String.eqb_spec str "Infinity") as [ -> | N ].
      * split; [ discriminate | intros [H _]; congruence ].
      * destruct (stod str) as [ v | e ].
        -- split; [ intros _; split; [ exact N | exists v; reflexivity ]
                  | reflexivity ].
        -- split; [ discriminate | intros [_ [v H]]; discriminate H ].
Qed.

(** ** [safeCalculate] *)

Lemma contains_to_string (val : Double.double) :
  contains "E" (to_string val) = false.
Proof.
  unfold to_string, fixed.
  destruct val as [ s | s | | s m e ];
    try (destruct s; reflexivity); try reflexivity.
  destruct (Double.magnitude _) as [num den].
  rewrite !contains_app, contains_sign, contains_dec by reflexivity.
  rewrite contains_numeral;
    [ reflexivity | reflexivity | apply Forall_digits_of ].
Qed.

(** X15.  [safeCalculate] returns ["Error: Div by 0"] exactly for a division
    by a zero; and whatever it returns is one of the two error texts or the
    six-decimal text of a finite result, which is never an error text. *)
Theorem safeCalculate_results (a b : Double.double) (op : ascii) :
  (safeCalculate a b op = "Error: Div by 0"
   <-> op = "/"%char /\ Double.eqb b Double.zero = true)
  /\ (safeCalculate a b op = "Error: Div by 0"
      \/ safeCalculate a b op = "Error"
      \/ (Double.is_finite (arithmetic op a b) = true
          /\ safeCalculate a b op = to_string (arithmetic op a b)
          /\ contains "E" (safeCalculate a b op) = false)).
Proof.
  assert (T : forall r, to_string r <> "Error: Div by 0").
  { intros r E. pose proof (contains_to_string r) as C.
    rewrite E in C. discriminate C. }
  assert (F : forall r, Double.isnan r || Double.isinf r = false ->
                        Double.is_finite r = true).
  { intros [ | | | ]; cbn; congruence. }
  unfold safeCalculate, arithmetic.
  destruct (Ascii.eqb_spec op "+") as [ -> | N1 ].
  { destruct (_ || _) eqn:E; split;
      try (split; [ intros H; try discriminate H; exfalso; apply (T _ H)
                  | intros [H _]; discriminate H ]).
    - right; left; reflexivity.
    - right; right. split; [ apply F, E | ].
      split; [ reflexivity | apply contains_to_string ]. }
  destruct (Ascii.eqb_spec op "-") as [ -> | N2 ].
  { destruct (_ || _) eqn:E; split;
      try (split; [ intros H; try discriminate H; exfalso; apply (T _ H)
                  | intros [H _]; discriminate H ]).
    - right; left; reflexivity.
    - right; right. split; [ apply F, E | ].
      split; [ reflexivity | apply contains_to_string ]. }
  destruct (Ascii.eqb_spec op "*") as [ -> | N3 ].
  { destruct (_ || _) eqn:E; split;
      try (split; [ intros H; try discriminate H; exfalso; apply (T _ H)
                  | intros [H _]; discriminate H ]).
    - right; left; reflexivity.
    - right; right. split; [ apply F, E | ].
      split; [ reflexivity | apply contains_to_string ]. }
  destruct (Ascii.eqb_spec op "/") as [ -> | N4 ].
  { destruct (Double.eqb b Double.zero) eqn:Z.
    - split; [ split; [ intros _; split; reflexivity | reflexivity ] | ].
      left; reflexivity.
    - destruct (_ || _) eqn:E; split;
        try (split; [ intros H; try discriminate H; exfalso; apply (T _ H)
                    | intros [_ H]; discriminate H ]).
      + right; left; reflexivity.
      + right; right. split; [ apply F, E | ].
        split; [ reflexivity | apply contains_to_string ]. }
  split; [ split; [ discriminate | intros [H _]; contradiction ] | ].
  right; left; reflexivity.
Qed.

(** ** Memory *)

(** X16.  The memory indicator is off exactly when the memory holds a zero
    of either sign; a NaN counts as memory.  [clear] turns it off, and
    add and subtract act on the memory in that order of operands. *)
Theorem memory_indicator (m : CalculatorMemory.CalculatorMemory) :
  (CalculatorMemory.hasMemory m = false
   <-> exists s, CalculatorMemory.recall m = S754_zero s)
  /\ CalculatorMemory.hasMemory (CalculatorMemory.clear m) = false
  /\ CalculatorMemory.hasMemory (CalculatorMemory.store S754_nan m) = true
  /\ CalculatorMemory.recall
       (CalculatorMemory.subtract (Double.of_Z 2)
          (CalculatorMemory.add (Double.of_Z 3)
             (CalculatorMemory.store (Double.of_Z 7) m))) = Double.of_Z 8.
Proof.
  split; [ | split; [ reflexivity | split; reflexivity ] ].
  unfold CalculatorMemory.hasMemory, CalculatorMemory.recall.
  destruct (CalculatorMemory.memory m) as [ s | s | | s mm e ].
  - split; [ intros _; exists s; reflexivity | reflexivity ].
  - split; [ destruct s; discriminate | intros [z H]; discriminate H ].
  - split; [ discriminate | intros [z H]; discriminate H ].
  - split; [ destruct s; discriminate | intros [z H]; discriminate H ].
Qed.

(** ** The button animation *)

(** X17.  An animation triggered at tick [start] is running [dt]
    milliseconds later exactly when [dt <= 100], also when the 32-bit tick
    counter wraps around in between. *)
Theorem animation_lasts_100_ms (rect : SDL.SDL_Rect) (start dt : Z)
    (a : ButtonAnimator.ButtonAnimator) :
  0 <= dt < 2 ^ 32 ->
  ButtonAnimator.isAnimating (start + dt)
    (ButtonAnimator.triggerAnimation rect start a)
  = (dt <=? 100).
Proof.
  intros D. unfold ButtonAnimator.isAnimating, ButtonAnimator.triggerAnimation.
  cbn [ButtonAnimator.animStartTime]. unfold SDL.Uint32, ButtonAnimator.animDuration.
  rewrite <- Zminus_mod.
  replace (start + dt - start) with dt by lia.
  rewrite Z.mod_small by exact D. reflexivity.
Qed.

Lemma animation_lasts_100_ms_witness :
  ButtonAnimator.isAnimating (4294967290 + 60)
    (ButtonAnimator.triggerAnimation
       {| SDL.x := 8; SDL.y := 108; SDL.w := 90; SDL.h := 70 |}
       4294967290 ButtonAnimator.initial)
  = (60 <=? 100).
Proof.
  apply (animation_lasts_100_ms _ 4294967290 60 ButtonAnimator.initial). lia.
Defined.

(** The alpha values of [draw] for 0 to 100 elapsed milliseconds. *)
Lemma draw_alpha_table :
  forallb
    (fun n =>
       match ButtonAnimator.draw (Z.of_nat n) ButtonAnimator.initial,
             ButtonAnimator.draw (Z.of_nat (S n)) ButtonAnimator.initial with
       | Some (al, _), Some (al', _) =>
           (al' <=? al) && (al <=? 255 - 2 * Z.of_nat n) && (0 <=? al')
           && (255 - 3 * Z.of_nat n <=? al)
       | _, _ => false
       end)
    (seq 0 100) = true.
Proof. vm_compute. reflexivity. Qed.

(** X18.  While the animation runs, [draw] fills the animated rectangle
    with an alpha between 0 and 255 that never grows as time passes: 255
    at the start, 0 after 100 ms; afterwards it draws nothing. *)
Theorem draw_fades_out (rect : SDL.SDL_Rect) (start dt : Z)
    (a : ButtonAnimator.ButtonAnimator) :
  0 <= dt < 2 ^ 32 ->
  (100 < dt ->
   ButtonAnimator.draw (start + dt)
     (ButtonAnimator.triggerAnimation rect start a) = None)
  /\ (dt < 100 ->
      exists alpha alpha',
        ButtonAnimator.draw (start + dt)
          (ButtonAnimator.triggerAnimation rect start a) = Some (alpha, rect)
        /\ ButtonAnimator.draw (start + (dt + 1))
             (ButtonAnimator.triggerAnimation rect start a)
           = Some (alpha', rect)
        /\ 0 <= alpha' <= alpha /\ alpha <= 255)
  /\ ButtonAnimator.draw (start + 0)
       (ButtonAnimator.triggerAnimation rect start a) = Some (255, rect)
  /\ ButtonAnimator.draw (start + 100)
       (ButtonAnimator.triggerAnimation rect start a) = Some (0, rect).
Proof.
  intros D.
  assert (E : forall d, 0 <= d < 2 ^ 32 ->
            ButtonAnimator.draw (start + d)
              (ButtonAnimator.triggerAnimation rect start a)
            = match ButtonAnimator.draw d ButtonAnimator.initial with
              | Some (al, _) => Some (al, rect)
              | None => None
              end).
  { intros d Hd. unfold ButtonAnimator.draw, ButtonAnimator.triggerAnimation.
    cbn [ButtonAnimator.animStartTime ButtonAnimator.animRect
         ButtonAnimator.initial].
    assert (L : SDL.Uint32 (SDL.Uint32 (start + d) - SDL.Uint32 start) = d).
    { unfold SDL.Uint32. rewrite <- Zminus_mod.
      replace (start + d - start) with d by lia. apply Z.mod_small, Hd. }
    assert (R : SDL.Uint32 (SDL.Uint32 d - 0) = d).
    { unfold SDL.Uint32. rewrite Z.sub_0_r, Zmod_mod. apply Z.mod_small, Hd. }
    rewrite L, R.
    destruct (ButtonAnimator.animDuration <? d); reflexivity. }
  split; [ | split; [ | split ] ].
  - intros G. rewrite (E dt D). unfold ButtonAnimator.draw.
    cbn [ButtonAnimator.animStartTime ButtonAnimator.initial].
    replace (SDL.Uint32 (SDL.Uint32 dt - 0)) with dt
      by (unfold SDL.Uint32; rewrite Z.sub_0_r, Zmod_mod;
          symmetry; apply Z.mod_small, D).
    unfold ButtonAnimator.animDuration.
    destruct (Z.ltb_spec 100 dt); [ reflexivity | lia ].
  - intros L. rewrite (E dt D), (E (dt + 1)) by lia.
    pose proof draw_alpha_table as T. rewrite forallb_forall in T.
    specialize (T (Z.to_nat dt)).
    rewrite Nat2Z.inj_succ, Z2Nat.id in T by lia.
    replace (Z.succ dt) with (dt + 1) in T by lia.
    assert (I : In (Z.to_nat dt) (seq 0 100)) by (apply in_seq; lia).
    specialize (T I).
    destruct (ButtonAnimator.draw dt ButtonAnimator.initial)
      as [ [al r] | ]; [ | discriminate ].
    destruct (ButtonAnimator.draw (dt + 1) ButtonAnimator.initial)
      as [ [al' r'] | ]; [ | discriminate ].
    apply andb_true_iff in T. destruct T as [T T4].
    apply andb_true_iff in T. destruct T as [T T3].
    apply andb_true_iff in T. destruct T as [T1 T2].
    apply Z.leb_le in T1, T2, T3.
    exists al, al'. repeat split; lia.
  - rewrite (E 0) by lia. reflexivity.
  - rewrite (E 100) by lia. reflexivity.
Qed.

Lemma draw_fades_out_witness :
  exists alpha alpha',
    ButtonAnimator.draw (4294967290 + 50)
      (ButtonAnimator.triggerAnimation
         {| SDL.x := 8; SDL.y := 108; SDL.w := 90; SDL.h := 70 |}
         4294967290 ButtonAnimator.initial)
    = Some (alpha, {| SDL.x := 8; SDL.y := 108; SDL.w := 90; SDL.h := 70 |})
    /\ ButtonAnimator.draw (4294967290 + (50 + 1))
         (ButtonAnimator.triggerAnimation
            {| SDL.x := 8; SDL.y := 108; SDL.w := 90; SDL.h := 70 |}
            4294967290 ButtonAnimator.initial)
       = Some (alpha', {| SDL.x := 8; SDL.y := 108; SDL.w := 90; SDL.h := 70 |})
    /\ 0 <= alpha' <= alpha /\ alpha <= 255.
Proof.
  destruct (draw_fades_out
              {| SDL.x := 8; SDL.y := 108; SDL.w := 90; SDL.h := 70 |}
              4294967290 50 ButtonAnimator.initial) as (_ & H & _); [ lia | ].
  apply H. lia.
Defined.

(** ** Scientific functions *)

(** Shifting a mantissa that is not negative to the right leaves it so. *)
Lemma shr_1_nonnegative (mrs : shr_record) :
  0 <= shr_m mrs -> 0 <= shr_m (shr_1 mrs).
Proof.
  destruct mrs as [m r s]. cbn [shr_m shr_1].
  destruct m as [ | [ p | p | ] | p ]; cbn [shr_m]; lia.
Qed.

Lemma iter_shr_1_nonnegative (p : positive) (mrs : shr_record) :
  0 <= shr_m mrs -> 0 <= shr_m (iter_pos shr_1 p mrs).
Proof.
  revert mrs. induction p as [ p IH | p IH | ]; intros mrs H; cbn [iter_pos].
  - apply IH, IH, shr_1_nonnegative, H.
  - apply IH, IH, H.
  - apply shr_1_nonnegative, H.
Qed.

Lemma shr_fexp_nonnegative (m e : Z) (l : location) :
  0 <= m -> 0 <= shr_m (fst (shr_fexp Double.prec Double.emax m e l)).
Proof.
  intros M. unfold shr_fexp, shr.
  assert (0 <= shr_m (shr_record_of_loc m l)) as R
    by (destruct l as [ | [ | | ] ]; exact M).
  destruct (fexp _ _ _ - e); cbn [fst]; try exact R.
  apply iter_shr_1_nonnegative, R.
Qed.

(** Rounding a mantissa that is not negative gives a number (not a NaN)
    with the sign asked for. *)
Lemma binary_round_aux_nonnegative (s : bool) (mx ex : Z) (lx : location) :
  0 <= mx ->
  Double.isnan (binary_round_aux Double.prec Double.emax s mx ex lx) = false
  /\ Double.signbit (binary_round_aux Double.prec Double.emax s mx ex lx) = s.
Proof.
  intros M. unfold binary_round_aux.
  pose proof (shr_fexp_nonnegative mx ex lx M) as R.
  destruct (shr_fexp _ _ mx ex lx) as [mrs e']. cbn [fst] in R.
  assert (0 <= round_nearest_even (shr_m mrs) (loc_of_shr_record mrs)) as C.
  { unfold round_nearest_even.
    destruct (loc_of_shr_record mrs) as [ | [ | | ] ];
      [ | destruct (Z.even (shr_m mrs)) | | ]; lia. }
  pose proof (shr_fexp_nonnegative _ e' loc_Exact C) as R'.
  destruct (shr_fexp _ _ _ e' loc_Exact) as [mrs' e'']. cbn [fst] in R'.
  destruct (shr_m mrs') as [ | m | m ]; [ split; reflexivity | | lia ].
  destruct (e'' <=? _); split; reflexivity.
Qed.

(** X19.  A square is never negative: [square] gives a NaN exactly when
    its argument is one, and for every other argument (negative, negative
    zero, an infinity) the sign bit of the result is clear. *)
Theorem square_is_not_negative (x : Double.double) :
  Double.isnan (ScientificCalculator.square x) = Double.isnan x
  /\ (Double.isnan x = false ->
      Double.signbit (ScientificCalculator.square x) = false).
Proof.
  unfold ScientificCalculator.square, Double.mul.
  destruct x as [ s | s | | s m e ]; cbn [SFmul Double.isnan];
    try (destruct s; split; reflexivity);
    [ split; [ reflexivity | discriminate ] | ].
  replace (xorb s s) with false by (destruct s; reflexivity).
  pose proof (binary_round_aux_nonnegative false (Zpos (m * m)) (e + e)
                loc_Exact ltac:(lia)) as [N S].
  split; [ exact N | intros _; exact S ].
Qed.

Lemma square_is_not_negative_witness :
  Double.signbit (ScientificCalculator.square (Double.of_Z (-3))) = false.
Proof.
  apply (proj2 (square_is_not_negative (Double.of_Z (-3)))). reflexivity.
Defined.

(** * Properties of the first calculator ([code.cpp]) *)

(** X20.  An operator or equals click needs a number in the display: on
    an empty display [std::stod] throws [std::invalid_argument], which
    nothing catches.  The display is empty at the start, after [C] and after
    every operator, so the first click being an operator, or two operators
    in a row, end the program. *)
Theorem gui_operator_needs_a_number (st : GuiCalculator.State) (l : string) :
  l = "+" \/ l = "-" \/ l = "*" \/ l = "/" \/ l = "=" ->
  (GuiCalculator.display st = "" ->
   GuiCalculator.press l st = Throw invalid_argument)
  /\ GuiCalculator.press l GuiCalculator.initial = Throw invalid_argument
  /\ (forall l0 st0,
        l0 = "C" \/ l0 = "+" \/ l0 = "-" \/ l0 = "*" \/ l0 = "/" ->
        GuiCalculator.press l0 st0 = Ok st ->
        GuiCalculator.press l st = Throw invalid_argument).
Proof.
  intros L.
  assert (E : GuiCalculator.display st = "" ->
              GuiCalculator.press l st = Throw invalid_argument).
  { intros D. unfold GuiCalculator.press. rewrite D.
    destruct L as [-> | [-> | [-> | [-> | ->]]]]; reflexivity. }
  split; [ exact E | ]. split.
  - destruct L as [-> | [-> | [-> | [-> | ->]]]]; reflexivity.
  - intros l0 st0 L0 H. apply E.
    unfold GuiCalculator.press in H.
    destruct L0 as [-> | [-> | [-> | [-> | ->]]]]; cbn in H;
      try (injection H as <-; reflexivity);
      (destruct (stod (GuiCalculator.display st0)); [ | discriminate ];
       injection H as <-; reflexivity).
Qed.

Lemma gui_operator_needs_a_number_witness :
  GuiCalculator.press "+"
    {| GuiCalculator.display := ""; GuiCalculator.a := Double.of_Z 5;
       GuiCalculator.b := Double.zero; GuiCalculator.op := "-" |}
  = Throw invalid_argument.
Proof.
  destruct (gui_operator_needs_a_number
              {| GuiCalculator.display := ""; GuiCalculator.a := Double.of_Z 5;
                 GuiCalculator.b := Double.zero; GuiCalculator.op := "-" |}
              "+") as [H _].
  - left. reflexivity.
  - apply H. reflexivity.
Defined.

(** X21.  Equals hides a division by zero: with [/] chosen and a display
    that reads as zero, and likewise with no operator chosen at all, the
    display becomes ["0.000000"]. *)
Theorem gui_equals_shows_zero (st : GuiCalculator.State) (v : Double.double) :
  stod (GuiCalculator.display st) = Ok v ->
  (GuiCalculator.op st = "/"%char /\ Double.eqb v Double.zero = true)
  \/ is_operator (GuiCalculator.op st) = false ->
  GuiCalculator.press "=" st =
    Ok {| GuiCalculator.display := "0.000000";
          GuiCalculator.a := GuiCalculator.a st;
          GuiCalculator.b := v;
          GuiCalculator.op := GuiCalculator.op st |}.
Proof.
  intros P H. unfold GuiCalculator.press. cbn [String.eqb Ascii.eqb Bool.eqb orb].
  rewrite P. destruct H as [[O Z] | O].
  - rewrite O. cbn [Ascii.eqb Bool.eqb andb]. rewrite Z. reflexivity.
  - unfold is_operator in O.
    apply orb_false_iff in O. destruct O as [O O4].
    apply orb_false_iff in O. destruct O as [O O3].
    apply orb_false_iff in O. destruct O as [O1 O2].
    rewrite O1, O2, O3, O4. reflexivity.
Qed.

Lemma gui_equals_shows_zero_witness :
  GuiCalculator.press "="
    {| GuiCalculator.display := "0"; GuiCalculator.a := Double.of_Z 5;
       GuiCalculator.b := Double.zero; GuiCalculator.op := "/" |}
  = Ok {| GuiCalculator.display := "0.000000";
          GuiCalculator.a := Double.of_Z 5;
          GuiCalculator.b := S754_zero false; GuiCalculator.op := "/" |}.
Proof.
  apply (gui_equals_shows_zero
           {| GuiCalculator.display := "0"; GuiCalculator.a := Double.of_Z 5;
              GuiCalculator.b := Double.zero; GuiCalculator.op := "/" |}).
  - reflexivity.
  - left. split; reflexivity.
Defined.

Lemma inRect_spec (mx my : Z) (r : SDL.SDL_Rect) :
  GuiCalculator.inRect mx my r = true
  <-> (SDL.x r <= mx <= SDL.x r + SDL.w r)
      /\ (SDL.y r <= my <= SDL.y r + SDL.h r).
Proof.
  unfold GuiCalculator.inRect. rewrite !andb_true_iff, !Z.leb_le. tauto.
Qed.

Lemma gui_click_miss (btn : GuiCalculator.Button)
    (rest : list GuiCalculator.Button) (mx my : Z) (st : GuiCalculator.State) :
  ~ ((SDL.x (GuiCalculator.rect btn) <= mx
      <= SDL.x (GuiCalculator.rect btn) + SDL.w (GuiCalculator.rect btn))
     /\ (SDL.y (GuiCalculator.rect btn) <= my
         <= SDL.y (GuiCalculator.rect btn) + SDL.h (GuiCalculator.rect btn))) ->
  GuiCalculator.mouse_button_down (btn :: rest) mx my st =
    GuiCalculator.mouse_button_down rest mx my st.
Proof.
  intros H. cbn [GuiCalculator.mouse_button_down].
  destruct (GuiCalculator.inRect mx my (GuiCalculator.rect btn)) eqn:E;
    [ | reflexivity ].
  apply inRect_spec in E. contradiction.
Qed.

Lemma gui_click_hit (btn : GuiCalculator.Button)
    (rest : list GuiCalculator.Button) (mx my : Z) (st : GuiCalculator.State) :
  (SDL.x (GuiCalculator.rect btn) <= mx
   <= SDL.x (GuiCalculator.rect btn) + SDL.w (GuiCalculator.rect btn))
  /\ (SDL.y (GuiCalculator.rect btn) <= my
      <= SDL.y (GuiCalculator.rect btn) + SDL.h (GuiCalculator.rect btn)) ->
  GuiCalculator.mouse_button_down (btn :: rest) mx my st =
    match GuiCalculator.press (GuiCalculator.label btn) st with
    | Ok st' => GuiCalculator.mouse_button_down rest mx my st'
    | Throw e => Throw e
    end.
Proof.
  intros H. cbn [GuiCalculator.mouse_button_down].
  apply inRect_spec in H. rewrite H. reflexivity.
Qed.

Ltac gui_misses :=
  repeat (rewrite gui_click_miss
            by (cbv [GuiCalculator.rect GuiCalculator.button
                     SDL.x SDL.y SDL.w SDL.h]; lia)).

Ltac gui_hit :=
  rewrite gui_click_hit
    by (cbv [GuiCalculator.rect GuiCalculator.button
             SDL.x SDL.y SDL.w SDL.h]; lia);
  cbn [GuiCalculator.label GuiCalculator.button];
  match goal with
  | |- match ?p with _ => _ end = _ => destruct p; [ | reflexivity ]
  end.

(** X22.  The digit column on the right and the operator column share the
    line x = 260, and the loop over the buttons does not stop at a hit: a
    click on that line presses two buttons, the digit (or equals) first and
    then the operator. *)
Theorem gui_shared_edge (my : Z) (st : GuiCalculator.State) :
  (120 <= my <= 180 ->
   GuiCalculator.mouse_button_down GuiCalculator.buttons 260 my st =
     match GuiCalculator.press "9" st with
     | Ok st' => GuiCalculator.press "+" st'
     | Throw e => Throw e
     end)
  /\ (200 <= my <= 260 ->
   GuiCalculator.mouse_button_down GuiCalculator.buttons 260 my st =
     match GuiCalculator.press "6" st with
     | Ok st' => GuiCalculator.press "-" st'
     | Throw e => Throw e
     end)
  /\ (280 <= my <= 340 ->
   GuiCalculator.mouse_button_down GuiCalculator.buttons 260 my st =
     match GuiCalculator.press "3" st with
     | Ok st' => GuiCalculator.press "*" st'
     | Throw e => Throw e
     end)
  /\ (360 <= my <= 420 ->
   GuiCalculator.mouse_button_down GuiCalculator.buttons 260 my st =
     match GuiCalculator.press "=" st with
     | Ok st' => GuiCalculator.press "/" st'
     | Throw e => Throw e
     end).
Proof.
  split; [ | split; [ | split ] ]; intros Y; unfold GuiCalculator.buttons;
    gui_misses; gui_hit; gui_misses;
    rewrite gui_click_hit
      by (cbv [GuiCalculator.rect GuiCalculator.button
               SDL.x SDL.y SDL.w SDL.h]; lia);
    cbn [GuiCalculator.label GuiCalculator.button];
    match goal with
    | |- match ?p with _ => _ end = _ => destruct p; [ | reflexivity ]
    end;
    gui_misses; reflexivity.
Qed.

Lemma gui_shared_edge_witness :
  GuiCalculator.mouse_button_down GuiCalculator.buttons 260 150
    {| GuiCalculator.display := "5"; GuiCalculator.a := Double.zero;
       GuiCalculator.b := Double.zero; GuiCalculator.op := NUL |}
  = Ok {| GuiCalculator.display := ""; GuiCalculator.a := Double.of_Z 59;
          GuiCalculator.b := Double.zero; GuiCalculator.op := "+" |}.
Proof.
  destruct (gui_shared_edge 150
              {| GuiCalculator.display := "5"; GuiCalculator.a := Double.zero;
                 GuiCalculator.b := Double.zero; GuiCalculator.op := NUL |})
    as [H _].
  rewrite H by lia. vm_compute. reflexivity.
Defined.
